(** * Network Location Switcher: the decision engine, embedded and verified

    Shallow embedding of the two daemon scripts

      - [src/network-location-switcher.py]                 (module [Script])
      - [src/network_loc_switcher/network_loc_switcher.py] (module [Package])

    The probes ([run_command], [get_wifi_interface], [get_current_ssid],
    [ethernet_active], [wifi_active], [get_current_location]) have the
    same text in both files and are embedded once.  External commands,
    the file system and the Python runtime are an explicit [host]; every
    function is a computation in the monad [M], which records the
    side effects a call issues and whether it returns or raises. *)

From Stdlib Require Import ZArith String Ascii List Bool Lia.
From stdpp Require Import base option gmap strings list.

Set Warnings "-register-all".
Set Default Proof Using "Type".

Local Open Scope string_scope.
Local Open Scope list_scope.
Local Open Scope Z_scope.

(** ** Python [str] operations used by the scripts

    Text is modelled as [string] (a sequence of 8-bit characters); the
    white space and line boundaries are the ASCII ones of [str.isspace]
    and [str.splitlines]. *)

Module PyStr.

(** [c.isspace()] on ASCII: TAB, LF, VT, FF, CR, FS, GS, RS, US, SPACE. *)
Definition isspace (c : ascii) : bool :=
  let n := Z.of_nat (nat_of_ascii c) in
  ((9 <=? n) && (n <=? 13)) || ((28 <=? n) && (n <=? 32)).

(** Line boundaries of [str.splitlines] on ASCII, CR apart:
    LF, VT, FF, FS, GS, RS. *)
Definition islinebreak (c : ascii) : bool :=
  let n := Z.of_nat (nat_of_ascii c) in
  ((10 <=? n) && (n <=? 12)) || ((28 <=? n) && (n <=? 30)).

Definition CR : ascii := ascii_of_nat 13.
Definition LF : ascii := ascii_of_nat 10.
Definition TAB : ascii := ascii_of_nat 9.

(** [bool(s)]: a string is truthy when it is not empty. *)
Definition truthy (s : string) : bool :=
  match s with EmptyString => false | String _ _ => true end.

(** [bool(o)] for an [Optional[str]]. *)
Definition truthy_opt (o : option string) : bool :=
  match o with None => false | Some s => truthy s end.

(** [f"{o}"] for an [Optional[str]]. *)
Definition format_opt (o : option string) : string :=
  match o with None => "None" | Some s => s end.

Fixpoint lstrip_by (p : ascii -> bool) (s : string) : string :=
  match s with
  | EmptyString => EmptyString
  | String c s' => if p c then lstrip_by p s' else s
  end.

Definition rstrip_by (p : ascii -> bool) (s : string) : string :=
  string_of_list_ascii
    (List.rev (list_ascii_of_string
                 (lstrip_by p (string_of_list_ascii
                                 (List.rev (list_ascii_of_string s)))))).

(** [s.strip()] *)
Definition strip (s : string) : string :=
  rstrip_by isspace (lstrip_by isspace s).

Fixpoint mem_char (c : ascii) (chars : string) : bool :=
  match chars with
  | EmptyString => false
  | String d rest => Ascii.eqb c d || mem_char c rest
  end.

(** [s.lstrip(chars)] *)
Definition lstrip (chars s : string) : string :=
  lstrip_by (fun c => mem_char c chars) s.

(** [s.startswith(p)] *)
Definition startswith (s p : string) : bool := String.prefix p s.

(** [sub in s] *)
Fixpoint contains (sub s : string) : bool :=
  String.prefix sub s
  || match s with
     | EmptyString => false
     | String _ s' => contains sub s'
     end.

(** [s.find(c)] for a one-character needle: first index, or -1. *)
Fixpoint find_from (c : ascii) (s : string) (i : Z) : Z :=
  match s with
  | EmptyString => -1
  | String d s' => if Ascii.eqb c d then i else find_from c s' (i + 1)
  end.

Definition find (c : ascii) (s : string) : Z := find_from c s 0.

(** Slice bounds as Python clamps them: a negative index counts from
    the end, and both ends are clipped to [0, len]. *)
Definition clamp_index (len i : Z) : Z :=
  if i <? 0 then Z.max 0 (i + len) else Z.min i len.

(** [s[a:b]] *)
Definition slice (s : string) (a b : Z) : string :=
  let len := Z.of_nat (String.length s) in
  let lo := clamp_index len a in
  let hi := clamp_index len b in
  if lo <? hi then String.substring (Z.to_nat lo) (Z.to_nat (hi - lo)) s
  else EmptyString.

(** [s.replace(old, new)], left to right, occurrences not overlapping.
    [skip] counts the characters of a matched [old] still to drop. *)
Fixpoint replace_go (old new : string) (skip : nat) (s : string) : string :=
  match s with
  | EmptyString => EmptyString
  | String c s' =>
      match skip with
      | S k => replace_go old new k s'
      | O =>
          if String.prefix old s
          then new +:+ replace_go old new (Nat.pred (String.length old)) s'
          else String c (replace_go old new O s')
      end
  end.

Fixpoint intersperse (new s : string) : string :=
  match s with
  | EmptyString => new
  | String c s' => new +:+ String c (intersperse new s')
  end.

Definition replace (s old new : string) : string :=
  match old with
  | EmptyString => intersperse new s
  | String _ _ => replace_go old new O s
  end.

(** [s.splitlines()]: [cur] holds the characters of the line being
    read, last one first. *)
Fixpoint splitlines_go (cur : list ascii) (s : string) : list string :=
  match s with
  | EmptyString =>
      match cur with
      | [] => []
      | _ :: _ => [string_of_list_ascii (List.rev cur)]
      end
  | String c s' =>
      if Ascii.eqb c CR then
        match s' with
        | String d s'' =>
            if Ascii.eqb d LF
            then string_of_list_ascii (List.rev cur) :: splitlines_go [] s''
            else string_of_list_ascii (List.rev cur) :: splitlines_go [] s'
        | EmptyString => [string_of_list_ascii (List.rev cur)]
        end
      else if islinebreak c
      then string_of_list_ascii (List.rev cur) :: splitlines_go [] s'
      else splitlines_go (c :: cur) s'
  end.

Definition splitlines (s : string) : list string := splitlines_go [] s.

End PyStr.


(** ** Python values a JSON configuration file can hold *)

Inductive pyval :=
| PNone
| PBool (b : bool)
| PInt (n : Z)
| PStr (s : string)
| PList (l : list pyval)
| PDict (d : gmap string pyval).

(** [isinstance(v, dict)] *)
Definition is_dict (v : pyval) : bool :=
  match v with PDict _ => true | _ => false end.

(** ** The host: subprocesses, files, the Python runtime *)

(** A command as [subprocess] receives it: one string run through the
    shell ([shell=True]) or an argument vector. *)
Inductive command :=
| Shell (line : string)
| Argv (args : list string).

(** What becomes of a subprocess: it ran and exited with a status and
    its standard output, or it could not be started at all. *)
Inductive proc_outcome :=
| Exited (returncode : Z) (stdout : string)
| NotStarted (detail : string).

(** The exceptions that the modelled code can meet. *)
Inductive exn :=
| CalledProcessError (returncode : Z) (cmd : command)
| OSError (detail : string)
| NameError (name : string)
| TypeError (detail : string)
| KeyError (key : string).

(** Side effects, in the order they are issued. [FileAppend path msg]
    is the line ["<timestamp> msg"] written to [path]. *)
Inductive event :=
| Exec (cmd : command)
| FileAppend (path msg : string)
| StderrLine (msg : string)
| MakeDirs (path : string).

Definition history := list event.

(** Every answer of the host may depend on all that happened before:
    the same command can print something else the next time. *)
Record host := {
  (** running a subprocess *)
  run_process : history -> command -> proc_outcome;
  (** [open(path, "a")] and the write: [None] when it succeeds, the
      [OSError] text otherwise *)
  append_line : history -> string -> option string;
  (** [os.path.exists] *)
  path_exists : history -> string -> bool;
  (** [os.makedirs(path, mode=0o755, exist_ok=True)]: [None] when it
      succeeds, the [OSError] text otherwise *)
  makedirs : history -> string -> option string;
  (** [os.path.isfile(p) and os.access(p, os.X_OK)] *)
  is_executable_file : history -> string -> bool;
  (** [os.geteuid()] *)
  geteuid : history -> Z;
  (** the home directory as [os.path.expanduser] pastes it in front of
      the rest of a ["~/..."] path (no slash at its end) *)
  home_dir : string;
  (** [os.path.dirname(os.path.abspath(__file__))] *)
  script_dir : string;
  (** [str(e)] for an exception, [str(v)] for a value *)
  str_exn : exn -> string;
  str_val : pyval -> string
}.

(** ** Computations *)

Inductive outcome (A : Type) :=
| Ret (a : A)
| Raise (e : exn).
Arguments Ret {A} a.
Arguments Raise {A} e.

(** A computation starts after the events [h] and yields its outcome
    with the events it issued itself. *)
Definition M (A : Type) : Type := history -> outcome A * list event.

Definition result {A} (m : M A) (h : history) : outcome A := fst (m h).
Definition effects {A} (m : M A) (h : history) : list event := snd (m h).

Definition ret {A} (a : A) : M A := fun _ => (Ret a, []).

Definition raise {A} (e : exn) : M A := fun _ => (Raise e, []).

Definition bind {A B} (m : M A) (f : A -> M B) : M B := fun h =>
  match m h with
  | (Ret a, t1) => let '(r, t2) := f a (h ++ t1) in (r, t1 ++ t2)
  | (Raise e, t1) => (Raise e, t1)
  end.

(** [try: m  except <those e with catches e = true> as e: handler e] *)
Definition try_except {A} (m : M A) (catches : exn -> bool)
    (handler : exn -> M A) : M A := fun h =>
  match m h with
  | (Ret a, t1) => (Ret a, t1)
  | (Raise e, t1) =>
      if catches e
      then let '(r, t2) := handler e (h ++ t1) in (r, t1 ++ t2)
      else (Raise e, t1)
  end.

(** Issue one side effect. *)
Definition emit (ev : event) : M unit := fun _ => (Ret tt, [ev]).

(** Ask the host a question that leaves no trace. *)
Definition ask {A} (q : history -> A) : M A := fun h => (Ret (q h), []).

#[global] Instance M_ret : MRet M := @ret.
#[global] Instance M_bind : MBind M := fun A B f m => bind m f.

(** The [except] clauses of the scripts. *)
Definition is_CalledProcessError (e : exn) : bool :=
  match e with CalledProcessError _ _ => true | _ => false end.

Definition is_OSError (e : exn) : bool :=
  match e with OSError _ => true | _ => false end.

(** [except Exception]: every exception of the model is one. *)
Definition is_Exception (e : exn) : bool := true.

Section Subprocess.
Context (os : host).

(** [subprocess.check_output(cmd, text=True)]: the output of a run
    that exits with status 0, [CalledProcessError] for another
    status, [OSError] when the program cannot be started. *)
Definition check_output (cmd : command) : M string := fun h =>
  match run_process os h cmd with
  | Exited rc out =>
      if rc =? 0 then (Ret out, [Exec cmd])
      else (Raise (CalledProcessError rc cmd), [Exec cmd])
  | NotStarted d => (Raise (OSError d), [Exec cmd])
  end.

(** [subprocess.run(cmd, check=True)] *)
Definition run_checked (cmd : command) : M unit :=
  _ ← check_output cmd; mret tt.

(** [subprocess.run(cmd, check=False, capture_output=True)]: the
    return code, whatever it is. *)
Definition run_unchecked (cmd : command) : M Z := fun h =>
  match run_process os h cmd with
  | Exited rc _ => (Ret rc, [Exec cmd])
  | NotStarted d => (Raise (OSError d), [Exec cmd])
  end.

(** [log(msg)].  [log_file] is the binding of the global [LOG_FILE]
    when the call is made: [None] while the module is still loading
    and the name is not assigned yet, which is a [NameError] that
    [except OSError] does not catch. *)
Definition log (log_file : option string) (msg : string) : M unit := fun h =>
  match log_file with
  | None => (Raise (NameError "LOG_FILE"), [])
  | Some path =>
      match append_line os h path with
      | None => (Ret tt, [FileAppend path msg])
      | Some d =>
          (Ret tt,
           [StderrLine msg;
            StderrLine ("Warning: Could not write to log file "
                        +:+ path +:+ ": " +:+ str_exn os (OSError d))])
      end
  end.

(** [run_command(cmd)] *)
Definition run_command (cmd : command) : M string :=
  try_except
    (out ← check_output cmd; mret (PyStr.strip out))
    is_CalledProcessError
    (fun _ => mret "").

End Subprocess.

(** ** [os.path] on POSIX paths *)

Module PyPath.

Definition is_slash (c : ascii) : bool := Ascii.eqb c "/"%char.

(** [p[:p.rfind("/") + 1]]: [p] up to its last slash, that slash
    included; empty when [p] has none. *)
Definition head_of (p : string) : string :=
  string_of_list_ascii
    (List.rev (list_ascii_of_string
                 (PyStr.lstrip_by (fun c => negb (is_slash c))
                    (string_of_list_ascii
                       (List.rev (list_ascii_of_string p)))))).

Definition all_slashes (s : string) : bool :=
  forallb is_slash (list_ascii_of_string s).

(** [os.path.dirname(p)] *)
Definition dirname (p : string) : string :=
  let head := head_of p in
  if PyStr.truthy head && negb (all_slashes head)
  then PyStr.rstrip_by is_slash head
  else head.

(** [os.path.join(a, b)] *)
Definition join (a b : string) : string :=
  if PyStr.startswith b "/" then b
  else if negb (PyStr.truthy a)
          || is_slash (List.last (list_ascii_of_string a) "x"%char)
  then a +:+ b
  else a +:+ "/" +:+ b.

End PyPath.

(** ** The configuration the daemon runs with

    The module-level names bound from the validated configuration:
    [SSID_LOCATION_MAP], [DEFAULT_WIFI_LOCATION], [ETHERNET_LOCATION],
    [LOG_FILE].  Profile names are strings, as [switch_location]
    declares its [target]. *)

Record globals := {
  SSID_LOCATION_MAP : gmap string string;
  DEFAULT_WIFI_LOCATION : string;
  ETHERNET_LOCATION : string;
  LOG_FILE : string
}.

(** The command that activates a profile. *)
Definition switch_command (target : string) : command :=
  Argv ["/usr/sbin/networksetup"; "-switchtolocation"; target].

Definition list_ports_command : command :=
  Shell "/usr/sbin/networksetup -listallhardwareports".

Definition preferred_networks_command (wifi_iface : string) : command :=
  Argv ["/usr/sbin/networksetup"; "-listpreferredwirelessnetworks"; wifi_iface].

Definition ifconfig_command (port : string) : command :=
  Shell ("/sbin/ifconfig " +:+ port).

Definition wifi_status_command (iface : string) : command :=
  Shell ("/sbin/ifconfig " +:+ iface +:+ " | grep 'status: active'").

Definition scselect_command : command := Argv ["/usr/sbin/scselect"].

(** ** The probes (same text in both scripts) *)

(** The loop of [get_wifi_interface]: the device named on the line
    after the first ["Hardware Port: Wi-Fi"] line that is followed by a
    ["Device:"] line. *)
Fixpoint find_wifi_device (lines : list string) : option string :=
  match lines with
  | [] => None
  | line :: rest =>
      if PyStr.startswith line "Hardware Port: Wi-Fi" then
        match rest with
        | next :: _ =>
            if PyStr.startswith next "Device:"
            then Some (PyStr.strip (PyStr.replace next "Device:" ""))
            else find_wifi_device rest
        | [] => find_wifi_device rest
        end
      else find_wifi_device rest
  end.

(** [device != wifi_iface], a [str] against an [Optional[str]]. *)
Definition differs_from (device : string) (wifi_iface : option string) : bool :=
  match wifi_iface with
  | Some w => negb (String.eqb device w)
  | None => true
  end.

(** The first loop of [ethernet_active]: the wired candidates. *)
Fixpoint ethernet_ports (wifi_iface : option string) (lines : list string)
  : list string :=
  match lines with
  | [] => []
  | line :: rest =>
      if PyStr.startswith line "Device:" then
        let device := PyStr.strip (PyStr.replace line "Device:" "") in
        if differs_from device wifi_iface
           && negb (String.eqb device "lo0")
           && PyStr.startswith device "en"
        then device :: ethernet_ports wifi_iface rest
        else ethernet_ports wifi_iface rest
      else ethernet_ports wifi_iface rest
  end.

(** The loop of [get_current_location]: the first line that starts,
    once stripped, with a star, cut between its first parentheses. *)
Fixpoint active_location (lines : list string) : option string :=
  match lines with
  | [] => None
  | line :: rest =>
      if PyStr.startswith (PyStr.strip line) "*" then
        let location := PyStr.strip (PyStr.lstrip "*" (PyStr.strip line)) in
        Some (PyStr.slice location
                (PyStr.find "("%char location + 1)
                (PyStr.find ")"%char location))
      else active_location rest
  end.

(** The second line of the preferred-networks listing, when there is
    one. *)
Definition second_line_ssid (lines : list string) : option string :=
  match lines with
  | _ :: second :: _ => Some (PyStr.lstrip (String PyStr.TAB "") (PyStr.strip second))
  | _ => None
  end.

Section Probes.
Context (os : host) (g : globals).

(** [log] once the module is loaded and [LOG_FILE] is bound. *)
Definition say (msg : string) : M unit := log os (Some (LOG_FILE g)) msg.

Definition get_wifi_interface : M (option string) :=
  ports_output ← run_command os list_ports_command;
  if negb (PyStr.truthy ports_output) then
    say "Could not get hardware ports list.";;
    mret None
  else
    let lines := PyStr.splitlines ports_output in
    let wifi_device := find_wifi_device lines in
    if PyStr.truthy_opt wifi_device then mret wifi_device
    else
      say "Could not detect Wi-Fi interface.";;
      mret None.

Definition get_current_ssid : M (option string) :=
  wifi_iface ← get_wifi_interface;
  match wifi_iface with
  | None => mret None
  | Some iface =>
      if negb (PyStr.truthy iface) then mret None
      else
        output ← run_command os (preferred_networks_command iface);
        if negb (PyStr.truthy output) then mret None
        else mret (second_line_ssid (PyStr.splitlines output))
  end.

(** The second loop of [ethernet_active]. *)
Fixpoint any_port_active (ports : list string) : M bool :=
  match ports with
  | [] => mret false
  | port :: rest =>
      if_output ← run_command os (ifconfig_command port);
      if PyStr.contains "status: active" if_output
         && PyStr.contains "inet " if_output
      then
        say ("Found active Ethernet interface: " +:+ port);;
        mret true
      else any_port_active rest
  end.

Definition ethernet_active : M bool :=
  wifi_iface ← get_wifi_interface;
  ports_output ← run_command os list_ports_command;
  if negb (PyStr.truthy ports_output) then mret false
  else
    any_port_active
      (ethernet_ports wifi_iface (PyStr.splitlines ports_output)).

Definition wifi_active : M bool :=
  iface ← get_wifi_interface;
  match iface with
  | None => mret false
  | Some i =>
      if negb (PyStr.truthy i) then mret false
      else
        output ← run_command os (wifi_status_command i);
        mret (PyStr.contains "status: active" output)
  end.

Definition get_current_location : M (option string) :=
  try_except
    (output ← check_output os scselect_command;
     mret (active_location (PyStr.splitlines output)))
    is_Exception
    (fun _ => mret None).

(** [current != target] in [switch_location]. *)
Definition already_on (current : option string) (target : string) : bool :=
  match current with
  | Some c => String.eqb c target
  | None => false
  end.

End Probes.

(** [SSID_LOCATION_MAP.get(ssid, default)]: the map has string keys,
    so a [None] key is never found. *)
Definition dict_get (m : gmap string string) (key : option string)
    (dflt : string) : string :=
  match key with
  | Some k => default dflt (m !! k)
  | None => dflt
  end.

(** ** [validate_config] (both scripts; the two log-file names differ) *)

Section ValidateConfig.
Context (os : host).
(** The binding of [LOG_FILE] when [validate_config] runs. *)
Context (log_file : option string).
(** The default of ["log_file"] and the name of the fallback file. *)
Context (default_log fallback_name : string).

Definition defaults : list (string * pyval) :=
  [("ssid_location_map", PDict ∅);
   ("default_wifi_location", PStr "Automatic");
   ("ethernet_location", PStr "Wired");
   ("log_file", PStr default_log)].

(** [for key, default_value in defaults.items(): ...] *)
Fixpoint fill_defaults (ds : list (string * pyval))
    (config : gmap string pyval) : M (gmap string pyval) :=
  match ds with
  | [] => mret config
  | (key, default_value) :: rest =>
      match config !! key with
      | Some _ => fill_defaults rest config
      | None =>
          log os log_file
            ("Warning: Missing config key '" +:+ key
             +:+ "', using default: " +:+ str_val os default_value);;
          fill_defaults rest (<[key := default_value]> config)
      end
  end.

(** [if not isinstance(config["ssid_location_map"], dict): ...] *)
Definition fix_ssid_map (config : gmap string pyval)
  : M (gmap string pyval) :=
  match config !! "ssid_location_map" with
  | None => raise (KeyError "ssid_location_map")
  | Some v =>
      if is_dict v then mret config
      else
        log os log_file "Error: 'ssid_location_map' must be an object/dictionary";;
        mret (<["ssid_location_map" := PDict ∅]> config)
  end.

(** The check of the log directory. *)
Definition fix_log_dir (config : gmap string pyval)
  : M (gmap string pyval) :=
  match config !! "log_file" with
  | None => raise (KeyError "log_file")
  | Some (PStr log_file_value) =>
      let log_dir := PyPath.dirname log_file_value in
      there ← ask (fun h => path_exists os h log_dir);
      if PyStr.truthy log_dir && negb there then
        try_except
          (emit (MakeDirs log_dir);;
           made ← ask (fun h => makedirs os h log_dir);
           match made with
           | Some d => raise (OSError d)
           | None =>
               log os log_file ("Created log directory: " +:+ log_dir);;
               mret config
           end)
          is_OSError
          (fun e =>
             log os log_file
               ("Warning: Cannot create log directory " +:+ log_dir
                +:+ ": " +:+ str_exn os e);;
             let fallback := PyPath.join (script_dir os) fallback_name in
             log os log_file ("Using fallback log file: " +:+ fallback);;
             mret (<["log_file" := PStr fallback]> config))
      else mret config
  | Some _ =>
      raise (TypeError "expected str, bytes or os.PathLike object")
  end.

Definition validate_config_with (config : gmap string pyval)
  : M (gmap string pyval) :=
  config ← fill_defaults defaults config;
  config ← fix_ssid_map config;
  fix_log_dir config.

End ValidateConfig.

(** What the daemon needs of a validated configuration. *)
Definition fully_defaulted (config : gmap string pyval) : Prop :=
  is_Some (config !! "ssid_location_map")
  /\ is_Some (config !! "default_wifi_location")
  /\ is_Some (config !! "ethernet_location")
  /\ is_Some (config !! "log_file")
  /\ exists d, config !! "ssid_location_map" = Some (PDict d).

(** ** [src/network-location-switcher.py] *)

Module Script.
Section Daemon.
Context (os : host) (g : globals).

Definition validate_config (log_file : option string) :=
  validate_config_with os log_file
    "/usr/local/log/network-location-switcher.log"
    "network-location-switcher.log".

Definition switch_location (target : string) : M unit :=
  current ← get_current_location os;
  say os g ("Current location: " +:+ PyStr.format_opt current
            +:+ ", target: " +:+ target);;
  if negb (already_on current target) then
    try_except
      (run_checked os (switch_command target);;
       say os g ("Switched network location → " +:+ target))
      is_Exception
      (fun e =>
         say os g ("Failed to switch to location '" +:+ target
                   +:+ "': " +:+ str_exn os e))
  else say os g ("Already on location: " +:+ target).

(** The [if]/[elif]/[else] of [network_changed]: the target and the
    line logged with it. *)
Definition choose_target (ssid : option string) (wifi wired : bool)
  : string * string :=
  if wired then
    let target := ETHERNET_LOCATION g in
    (target, "Detected Ethernet connection active. Target=" +:+ target)
  else if wifi && PyStr.truthy_opt ssid then
    let target := dict_get (SSID_LOCATION_MAP g) ssid
                           (DEFAULT_WIFI_LOCATION g) in
    (target,
     "Detected Wi-Fi SSID=" +:+ PyStr.format_opt ssid
     +:+ ", target=" +:+ target)
  else
    let target := DEFAULT_WIFI_LOCATION g in
    (target,
     "No active Wi-Fi or Ethernet detected. Using default location: "
     +:+ target).

Definition network_changed : M unit :=
  ssid ← get_current_ssid os g;
  wifi ← wifi_active os g;
  wired ← ethernet_active os g;
  let '(target, line) := choose_target ssid wifi wired in
  say os g line;;
  switch_location target.

End Daemon.
End Script.

(** ** [src/network_loc_switcher/network_loc_switcher.py] *)

Module Package.

Definition DQUOTE : string := String (ascii_of_nat 34) EmptyString.
Definition BACKSLASH : string := String (ascii_of_nat 92) EmptyString.

(** [s.replace('"', '\\"').replace("\\", "\\\\")] *)
Definition applescript_escape (s : string) : string :=
  PyStr.replace
    (PyStr.replace s DQUOTE (BACKSLASH +:+ DQUOTE))
    BACKSLASH (BACKSLASH +:+ BACKSLASH).

Definition notification_script (title message : string) : string :=
  "display notification " +:+ DQUOTE +:+ applescript_escape message
  +:+ DQUOTE +:+ " with title " +:+ DQUOTE +:+ applescript_escape title
  +:+ DQUOTE +:+ " sound name " +:+ DQUOTE +:+ "Glass" +:+ DQUOTE.

Definition console_user_command : command :=
  Shell "/usr/bin/stat -f '%Su' /dev/console".

Definition user_id_command (console_user : string) : command :=
  Shell ("/usr/bin/id -u " +:+ console_user).

Section Daemon.
Context (os : host) (g : globals).

Definition validate_config (log_file : option string) :=
  validate_config_with os log_file
    "/usr/local/log/network_loc_switcher.log"
    "network_loc_switcher.log".

Definition paths_to_check : list string :=
  [home_dir os
   +:+ "/Library/Application Support/NotifyTool.app/Contents/MacOS/notifytool";
   "/usr/local/bin/notifytool";
   PyPath.join (script_dir os) "notifytool"].

Fixpoint first_executable (paths : list string) : M (option string) :=
  match paths with
  | [] => mret None
  | path :: rest =>
      ok ← ask (A := bool) (fun h => is_executable_file os h path);
      if (ok : bool) then mret (Some path) else first_executable rest
  end.

Definition get_notifytool_path : M (option string) :=
  first_executable paths_to_check.

Definition send_notification_notifytool (title message : string)
    (subtitle : option string) : M bool :=
  notifytool_path ← get_notifytool_path;
  if negb (PyStr.truthy_opt notifytool_path) then mret false
  else
    try_except
      (let cmd :=
         [PyStr.format_opt notifytool_path; "--title"; title; "--body"; message]
         ++ (if PyStr.truthy_opt subtitle
             then ["--subtitle"; PyStr.format_opt subtitle] else []) in
       let regular := (rc ← run_unchecked os (Argv cmd); mret (rc =? 0)) in
       euid ← ask (A := Z) (geteuid os);
       if euid =? 0 then
         console_user_output ← run_command os console_user_command;
         if PyStr.truthy console_user_output then
           let console_user := PyStr.strip console_user_output in
           user_id_output ← run_command os (user_id_command console_user);
           if PyStr.truthy user_id_output then
             let user_id := PyStr.strip user_id_output in
             run_unchecked os (Argv (["/bin/launchctl"; "asuser"; user_id] ++ cmd));;
             mret true
           else regular
         else regular
       else regular)
      is_Exception
      (fun e => say os g ("NotifyTool failed: " +:+ str_exn os e);; mret false).

Definition send_notification_osascript (title message : string) : M bool :=
  try_except
    (let script := notification_script title message in
     let regular :=
       (run_unchecked os (Argv ["/usr/bin/osascript"; "-e"; script]);;
        mret true) in
     euid ← ask (A := Z) (geteuid os);
     if euid =? 0 then
       console_user_output ← run_command os console_user_command;
       if PyStr.truthy console_user_output then
         let console_user := PyStr.strip console_user_output in
         user_id_output ← run_command os (user_id_command console_user);
         (if PyStr.truthy user_id_output then
            let user_id := PyStr.strip user_id_output in
            run_unchecked os
              (Argv ["/bin/launchctl"; "asuser"; user_id;
                     "/usr/bin/osascript"; "-e"; script]);;
            mret tt
          else mret tt);;
         mret true
       else regular
     else regular)
    is_Exception
    (fun e =>
       say os g ("osascript notification failed: " +:+ str_exn os e);;
       mret false).

Definition send_notification (title message : string)
    (subtitle : option string) : M unit :=
  sent ← send_notification_notifytool title message subtitle;
  if (sent : bool) then mret tt
  else
    sent' ← send_notification_osascript title message;
    if negb sent'
    then say os g ("Could not send notification: " +:+ title
                   +:+ " - " +:+ message)
    else mret tt.

Definition switch_location (target : string) : M unit :=
  current ← get_current_location os;
  say os g ("Current location: " +:+ PyStr.format_opt current
            +:+ ", target: " +:+ target);;
  if negb (already_on current target) then
    try_except
      (run_checked os (switch_command target);;
       say os g ("Switched network location → " +:+ target);;
       send_notification "Network Location Switched"
         ("Switched to '" +:+ target +:+ "' network location") None)
      is_Exception
      (fun e =>
         say os g ("Failed to switch to location '" +:+ target
                   +:+ "': " +:+ str_exn os e))
  else say os g ("Already on location: " +:+ target).

(** The [if]/[elif]/[else] of [network_changed]: the target and the
    line logged with it. *)
Definition choose_target (ssid : option string) (wifi wired : bool)
  : string * string :=
  if wired then
    let target := ETHERNET_LOCATION g in
    (target, "Detected Ethernet connection active. Target=" +:+ target)
  else if wifi && PyStr.truthy_opt ssid then
    let target := dict_get (SSID_LOCATION_MAP g) ssid
                           (DEFAULT_WIFI_LOCATION g) in
    (target,
     "Detected Wi-Fi SSID=" +:+ PyStr.format_opt ssid
     +:+ ", target=" +:+ target)
  else
    let target := DEFAULT_WIFI_LOCATION g in
    (target,
     "No active Wi-Fi or Ethernet detected. Using default location: "
     +:+ target).

Definition network_changed : M unit :=
  ssid ← get_current_ssid os g;
  wifi ← wifi_active os g;
  wired ← ethernet_active os g;
  let '(target, line) := choose_target ssid wifi wired in
  say os g line;;
  switch_location target.

End Daemon.
End Package.

(** ** Observations on traces *)

(** An event that issues the profile switch. *)
Definition is_switch_exec (ev : event) : bool :=
  match ev with
  | Exec (Argv ("/usr/sbin/networksetup" :: "-switchtolocation" :: _)) => true
  | _ => false
  end.

(** How many times a trace issues the profile switch. *)
Definition switch_count (t : list event) : nat :=
  length (List.filter is_switch_exec t).

(** The message reached the log: the file, or standard error when the
    file could not be written. *)
Definition is_log_of (msg : string) (ev : event) : bool :=
  match ev with
  | FileAppend _ m => String.eqb m msg
  | StderrLine m => String.eqb m msg
  | _ => false
  end.

Definition logged (msg : string) (t : list event) : bool :=
  existsb (is_log_of msg) t.

(** The line [switch_location] writes after a successful switch. *)
Definition switched_line (target : string) : string :=
  "Switched network location → " +:+ target.

(** The line [switch_location] writes after a failed switch. *)
Definition failed_line (os : host) (target : string) (e : exn) : string :=
  "Failed to switch to location '" +:+ target +:+ "': " +:+ str_exn os e.

(** The exception [check_output] and [run(check=True)] raise for an
    outcome, if any. *)
Definition failure_of (cmd : command) (o : proc_outcome) : option exn :=
  match o with
  | Exited rc _ => if rc =? 0 then None else Some (CalledProcessError rc cmd)
  | NotStarted d => Some (OSError d)
  end.

(** A sub-query of a probe that fails or prints nothing: the command
    exits with another status than 0, or its output is empty once
    stripped. *)
Definition failed_or_empty (o : proc_outcome) : Prop :=
  match o with
  | Exited rc out => rc <> 0 \/ PyStr.strip out = ""
  | NotStarted _ => False
  end.

(** [m] never raises. *)
Definition returns {A} (m : M A) : Prop :=
  forall h, exists a, result m h = Ret a.

(** [n] triggers in a row. *)
Fixpoint repeat_M (n : nat) (m : M unit) : M unit :=
  match n with
  | O => mret tt
  | S k => m;; repeat_M k m
  end.

(** The history in which [switch_location] issues the switch: after it
    has read the active profile and logged it. *)
Definition before_switch (os : host) (g : globals) (target : string)
    (h : history) : history :=
  let h1 := h ++ effects (get_current_location os) h in
  h1 ++ effects
          (say os g ("Current location: "
                     +:+ PyStr.format_opt
                           (match result (get_current_location os) h with
                            | Ret c => c
                            | Raise _ => None
                            end)
                     +:+ ", target: " +:+ target)) h1.

(** ** Hosts for examples: every answer read from a table *)

Fixpoint args_eqb (a b : list string) : bool :=
  match a, b with
  | [], [] => true
  | x :: a', y :: b' => String.eqb x y && args_eqb a' b'
  | _, _ => false
  end.

Definition command_eqb (a b : command) : bool :=
  match a, b with
  | Shell x, Shell y => String.eqb x y
  | Argv x, Argv y => args_eqb x y
  | _, _ => false
  end.

(** A command that is not in the table is not found by the shell
    (status 127). *)
Fixpoint lookup_command (table : list (command * proc_outcome))
    (cmd : command) : proc_outcome :=
  match table with
  | [] => Exited 127 ""
  | (k, o) :: rest => if command_eqb k cmd then o else lookup_command rest cmd
  end.

Definition plain_str_exn (e : exn) : string :=
  match e with
  | CalledProcessError rc _ => "Command returned non-zero exit status"
  | OSError d => d
  | NameError n => "name '" +:+ n +:+ "' is not defined"
  | TypeError d => d
  | KeyError k => "'" +:+ k +:+ "'"
  end.

Definition plain_str_val (v : pyval) : string :=
  match v with
  | PNone => "None"
  | PBool true => "True"
  | PBool false => "False"
  | PStr s => s
  | PInt _ => "<int>"
  | PList _ => "[...]"
  | PDict _ => "{...}"
  end.

(** A user-mode host with a writable log, no NotifyTool, and the
    subprocess answers of [table]. *)
Definition table_host (table : list (command * proc_outcome)) : host :=
  {| run_process := fun _ cmd => lookup_command table cmd;
     append_line := fun _ _ => None;
     path_exists := fun _ _ => true;
     makedirs := fun _ _ => None;
     is_executable_file := fun _ _ => false;
     geteuid := fun _ => 501;
     home_dir := "/Users/user";
     script_dir := "/opt/network-location-switcher";
     str_exn := plain_str_exn;
     str_val := plain_str_val |}.

Definition NL : string := String PyStr.LF EmptyString.

(** A hardware-port listing with one wired port and the Wi-Fi port. *)
Definition sample_ports : string :=
  "Hardware Port: Ethernet" +:+ NL +:+ "Device: en5" +:+ NL
  +:+ "Ethernet Address: 00:00:00:00:00:05" +:+ NL +:+ NL
  +:+ "Hardware Port: Wi-Fi" +:+ NL +:+ "Device: en0" +:+ NL
  +:+ "Ethernet Address: 00:00:00:00:00:00" +:+ NL.

(** The listing of [scselect] with [name] active. *)
Definition sample_scselect (name : string) : string :=
  "Defined sets include: (* == current set)" +:+ NL
  +:+ " * 11111111-2222-3333-4444-555555555555	(" +:+ name +:+ ")" +:+ NL
  +:+ "   66666666-7777-8888-9999-000000000000	(Other)" +:+ NL.

(** The configuration of the end-to-end scenarios. *)
Definition sample_globals : globals :=
  {| SSID_LOCATION_MAP := {[ "HomeNet" := "Home" ]};
     DEFAULT_WIFI_LOCATION := "Automatic";
     ETHERNET_LOCATION := "Wired";
     LOG_FILE := "/usr/local/log/network_loc_switcher.log" |}.

(** ** The active line of the profile listing *)

(** The line is marked as the active profile. *)
Definition is_marked (line : string) : bool :=
  PyStr.startswith (PyStr.strip line) "*".

(** The marked line has the format the reader expects,
    ["* LocationID (LocationName)"]: after the star, a parenthesis opens
    and a later one closes. *)
Definition names_profile (line : string) : bool :=
  let location := PyStr.strip (PyStr.lstrip "*" (PyStr.strip line)) in
  (0 <=? PyStr.find "("%char location)
  && (PyStr.find "("%char location <? PyStr.find ")"%char location).

(** The listing can be parsed: it has a marked line, and the first one
    names a profile. *)
Fixpoint listing_parses (lines : list string) : bool :=
  match lines with
  | [] => false
  | line :: rest =>
      if is_marked line then names_profile line else listing_parses rest
  end.

(** The reader yields [None] for every listing that cannot be parsed. *)
Definition unparsable_reads_None : Prop :=
  forall (os : host) (h : history) (out : string),
    run_process os h scselect_command = Exited 0 out ->
    listing_parses (PyStr.splitlines out) = false ->
    result (get_current_location os) h = Ret None.

(** A failed switch, as [m] handles it from [h]: [m] returns, has
    issued the switch once, has logged the failure and no success. *)
Definition fails_quietly (os : host) (target : string) (e : exn)
    (m : M unit) (h : history) : Prop :=
  result m h = Ret tt
  /\ switch_count (effects m h) = 1%nat
  /\ logged (failed_line os target e) (effects m h) = true
  /\ logged (switched_line target) (effects m h) = false.

(** ** More example hosts *)

(** [scselect] reports the profile [name] as active; every other
    command fails. *)
Definition host_on (name : string) : host :=
  table_host [(scselect_command, Exited 0 (sample_scselect name))].

(** [scselect] marks a line that lacks the parenthesised name. *)
Definition malformed_listing : string := " * Home".

Definition malformed_host : host :=
  table_host [(scselect_command, Exited 0 malformed_listing)].

(** The profile switch fails with status 1. *)
Definition failing_switch_host : host :=
  table_host [(scselect_command, Exited 0 (sample_scselect "Automatic"));
              (switch_command "Home", Exited 1 "")].

(** The profile switch succeeds. *)
Definition switching_host : host :=
  table_host [(scselect_command, Exited 0 (sample_scselect "Automatic"));
              (switch_command "Home", Exited 0 "")].

(** Every subprocess can be started: each one runs and exits with some
    status. *)
Definition always_starts (os : host) : Prop :=
  forall (h : history) (cmd : command),
    exists rc out, run_process os h cmd = Exited rc out.


(** A host where every command fails (status 127). *)
Definition bare_host : host := table_host [].

(** A host with wired port en5 and Wi-Fi on en0: both links are up, and
    neither interface has an IPv4 address. *)
Definition link_only : string :=
  "flags=8863<UP,BROADCAST,SMART,RUNNING,SIMPLEX,MULTICAST> mtu 1500" +:+ NL
  +:+ "	inet6 fe80::1%en5 prefixlen 64 scopeid 0x4" +:+ NL
  +:+ "	status: active" +:+ NL.



(** ** Comparing the two scripts *)

(** The events [extra] are nothing, or what one call of
    [send_notification] issues. *)
Definition only_notification (os : host) (g : globals) (extra : list event)
  : Prop :=
  extra = []
  \/ exists title message h,
       extra = effects (Package.send_notification os g title message None) h.

(** The run [y] is the run [x] followed by nothing but a notification. *)
Definition same_up_to_notification (os : host) (g : globals)
    (x y : outcome unit * list event) : Prop :=
  x.1 = y.1
  /\ exists extra, y.2 = x.2 ++ extra /\ only_notification os g extra.

(** The four keys of a configuration. *)
Definition config_keys : list string :=
  ["ssid_location_map"; "default_wifi_location"; "ethernet_location";
   "log_file"].

(** The hosts of the end-to-end scenarios: Wi-Fi on en0 is up and
    associated to [ssid], the wired port en5 has an address or not, the
    active profile is [current], and every switch succeeds. *)
Definition scenario_host (ssid current : string) (wired : bool) : host :=
  table_host
    [(list_ports_command, Exited 0 sample_ports);
     (preferred_networks_command "en0",
      Exited 0 ("Preferred networks on en0:" +:+ NL
                +:+ "	" +:+ ssid +:+ NL +:+ "	Elsewhere" +:+ NL));
     (wifi_status_command "en0", Exited 0 "	status: active");
     (ifconfig_command "en5",
      Exited 0 (if wired
                then link_only +:+ "	inet 192.168.1.20 netmask 0xffffff00"
                else "	status: inactive"));
     (scselect_command, Exited 0 (sample_scselect current));
     (switch_command "Home", Exited 0 "");
     (switch_command "Wired", Exited 0 "");
     (switch_command "Automatic", Exited 0 "")].

(** The switch commands of a trace, in order. *)
Definition switches (t : list event) : list event :=
  List.filter is_switch_exec t.

(** ** Predicates on whole computations *)

(** Every event that [m] issues, from any history, satisfies [P]. *)
Definition all_effects {A} (P : event -> Prop) (m : M A) : Prop :=
  forall h, Forall P (effects m h).

(** [m] raises nothing but exceptions that satisfy [P]. *)
Definition raises_only {A} (P : exn -> Prop) (m : M A) : Prop :=
  forall h e, result m h = Raise e -> P e.

(** The event is not the profile switch. *)
Definition not_a_switch (ev : event) : Prop := is_switch_exec ev = false.



(** A host with NotifyTool installed in /usr/local/bin, the effective
    user id [euid], and the subprocess answers of [table]. *)
Definition notifytool_host (euid : Z) (table : list (command * proc_outcome))
  : host :=
  {| run_process := fun _ cmd => lookup_command table cmd;
     append_line := fun _ _ => None;
     path_exists := fun _ _ => true;
     makedirs := fun _ _ => None;
     is_executable_file := fun _ p => String.eqb p "/usr/local/bin/notifytool";
     geteuid := fun _ => euid;
     home_dir := "/Users/user";
     script_dir := "/opt/network-location-switcher";
     str_exn := plain_str_exn;
     str_val := plain_str_val |}.

(** The system service: root, no NotifyTool. *)
Definition root_host (table : list (command * proc_outcome)) : host :=
  {| run_process := fun _ cmd => lookup_command table cmd;
     append_line := fun _ _ => None;
     path_exists := fun _ _ => true;
     makedirs := fun _ _ => None;
     is_executable_file := fun _ _ => false;
     geteuid := fun _ => 0;
     home_dir := "/var/root";
     script_dir := "/opt/network-location-switcher";
     str_exn := plain_str_exn;
     str_val := plain_str_val |}.

(** A fresh installation: no directory exists yet, and none can be
    created. *)
Definition fresh_host : host :=
  {| run_process := fun _ cmd => lookup_command [] cmd;
     append_line := fun _ _ => None;
     path_exists := fun _ _ => false;
     makedirs := fun _ _ => Some "Permission denied";
     is_executable_file := fun _ _ => false;
     geteuid := fun _ => 501;
     home_dir := "/Users/user";
     script_dir := "/opt/network-location-switcher";
     str_exn := plain_str_exn;
     str_val := plain_str_val |}.

(** A configuration with its four keys. *)
Definition sample_config : gmap string pyval :=
  <["log_file" := PStr "/usr/local/log/network_loc_switcher.log"]>
    (<["ethernet_location" := PStr "Wired"]>
       (<["default_wifi_location" := PStr "Automatic"]>
          (<["ssid_location_map" := PDict {[ "HomeNet" := PStr "Home" ]}]> ∅))).

(** ** Loading the configuration: [parse_args], [load_config],
    [create_default_config] *)

(** [s.lower()], on ASCII. *)
Definition lower_char (c : ascii) : ascii :=
  let n := nat_of_ascii c in
  if (65 <=? n)%nat && (n <=? 90)%nat then ascii_of_nat (n + 32) else c.

Fixpoint lower (s : string) : string :=
  match s with
  | EmptyString => EmptyString
  | String c s' => String (lower_char c) (lower s')
  end.

(** [s in (a, b, ...)] *)
Definition member (s : string) (options : list string) : bool :=
  existsb (String.eqb s) options.

(** What the loader prints or logs. [Stamped s] is the line
    ["<timestamp> s"] on standard output; [Logged msg] is a line that
    [log] wrote, to the log file or to standard error. *)
Inductive output :=
| HelpText
| VersionText
| Line (s : string)
| Stamped (s : string)
| Logged (msg : string).

(** How a call ends. [AttributeError] and [SystemExit] are the
    exceptions that only the loader raises. *)
Inductive ending (A : Type) :=
| Returns (a : A)
| Raises (e : exn)
| AttributeError (detail : string)
| SystemExit (code : Z).
Arguments Returns {A} a.
Arguments Raises {A} e.
Arguments AttributeError {A} detail.
Arguments SystemExit {A} code.

(** A regular file, as [open] and [json.load] see it. *)
Inductive file :=
| JsonFile (v : pyval)
| NotJson (detail : string)
| Unreadable (detail : string).

(** The regular files of the machine, by path. *)
Definition disk := gmap string file.

(** [os.path.isfile(path)] *)
Definition isfile (d : disk) (path : string) : bool :=
  match d !! path with Some _ => true | None => false end.

(** [with open(path) as f: json.load(f)]: the value, or the text of the
    [OSError] or [JSONDecodeError], which the loader always catches
    together. *)
Inductive read_result :=
| ReadOk (v : pyval)
| ReadFails (detail : string).

Definition json_load (d : disk) (path : string) : read_result :=
  match d !! path with
  | Some (JsonFile v) => ReadOk v
  | Some (NotJson detail) => ReadFails detail
  | Some (Unreadable detail) => ReadFails detail
  | None => ReadFails "No such file or directory"
  end.

(** [log(msg)] while [LOG_FILE] has the binding [log_file]. *)
Definition load_log (log_file : option string) (msg : string)
  : ending unit * list output :=
  match log_file with
  | None => (Raises (NameError "LOG_FILE"), [])
  | Some _ => (Returns tt, [Logged msg])
  end.

(** The calls [log(m1); log(m2); ...; return v]. *)
Fixpoint log_all {A} (log_file : option string) (msgs : list string) (v : A)
  : ending A * list output :=
  match msgs with
  | [] => (Returns v, [])
  | msg :: rest =>
      match load_log log_file msg with
      | (Returns _, o) =>
          let '(r, o') := log_all log_file rest v in (r, o ++ o')
      | (Raises e, o) => (Raises e, o)
      | (AttributeError x, o) => (AttributeError x, o)
      | (SystemExit c, o) => (SystemExit c, o)
      end
  end.

(** [{k: v for k, v in value.items() if not k.startswith("_")}] *)
Definition without_comments (m : gmap string pyval) : gmap string pyval :=
  filter (fun kv => PyStr.startswith kv.1 "_" = false) m.

(** The loop that cleans the template. *)
Definition clean_value (value : pyval) : pyval :=
  match value with
  | PDict m => PDict (without_comments m)
  | _ => value
  end.

Definition clean_template (template_config : gmap string pyval)
  : gmap string pyval :=
  clean_value <$> without_comments template_config.

Section Loading.
Context (os : host).
(** [os.environ.get("USER", os.environ.get("USERNAME", ""))] *)
Context (username : string).
(** [open(path, "w")]: [None] when it succeeds, the text of the
    [OSError] otherwise. *)
Context (write_error : string -> option string).
(** The binding of [LOG_FILE] when the loader runs. *)
Context (log_file : option string).
(** The ["log_file"] of the built-in configurations. *)
Context (default_log : string).

Definition default_config_path : string :=
  PyPath.join (script_dir os) "network-location-config.json".

Definition template_path : string :=
  PyPath.join (script_dir os) "network-location-config.default.json".

Definition fallback_config : gmap string pyval :=
  <["ssid_location_map" :=
      PDict (<["YourWiFiNetwork" := PStr "Home"]>
               (<["OfficeWiFi" := PStr "Work"]>
                  (<["MobileHotspot" := PStr "Mobile"]> ∅)))]>
    (<["default_wifi_location" := PStr "Automatic"]>
       (<["ethernet_location" := PStr "Wired"]>
          (<["log_file" := PStr default_log]> ∅))).

Definition last_resort_config : gmap string pyval :=
  <["ssid_location_map" := PDict ∅]>
    (<["default_wifi_location" := PStr "Automatic"]>
       (<["ethernet_location" := PStr "Wired"]>
          (<["log_file" := PStr default_log]> ∅))).

(** The part of [create_default_config] after the template. *)
Definition create_fallback_config (d : disk)
  : ending pyval * disk * list output :=
  match write_error default_config_path with
  | None =>
      let '(r, o) :=
        log_all log_file
          ["Created basic configuration file: " +:+ default_config_path;
           "Please edit this file to match your network setup!"]
          (PDict fallback_config) in
      (r, <[default_config_path := JsonFile (PDict fallback_config)]> d, o)
  | Some e =>
      let '(r, o) :=
        log_all log_file ["Error creating config file: " +:+ e]
          (PDict last_resort_config) in
      (r, d, o)
  end.

(** The [except (OSError, json.JSONDecodeError)] of the template part,
    and the fall through to the built-in configuration. *)
Definition template_failed (e : string) (d : disk)
  : ending pyval * disk * list output :=
  match load_log log_file
          ("Error using template file " +:+ template_path +:+ ": " +:+ e) with
  | (Returns _, o) =>
      let '(r, d', o') := create_fallback_config d in (r, d', o ++ o')
  | (Raises x, o) => (Raises x, d, o)
  | (AttributeError x, o) => (AttributeError x, d, o)
  | (SystemExit c, o) => (SystemExit c, d, o)
  end.

Definition create_default_config (d : disk)
  : ending pyval * disk * list output :=
  if isfile d template_path then
    match json_load d template_path with
    | ReadFails e => template_failed e d
    | ReadOk (PDict template_config) =>
        let clean_config := clean_template template_config in
        match write_error default_config_path with
        | None =>
            let '(r, o) :=
              log_all log_file
                ["Created configuration file from template: "
                 +:+ default_config_path;
                 "Template file used: network-location-config.default.json";
                 "Please edit the new config file to match your network setup!"]
                (PDict clean_config) in
            (r, <[default_config_path := JsonFile (PDict clean_config)]> d, o)
        | Some e => template_failed e d
        end
    | ReadOk _ => (AttributeError "object has no attribute 'items'", d, [])
    end
  else create_fallback_config d.

(** The standard search order. *)
Definition config_paths (config_file_arg : option string)
  : list (option string) :=
  [config_file_arg;
   Some (PyPath.join (script_dir os) "network-location-config.json");
   Some (home_dir os +:+ "/.network-location-config.json");
   (if PyStr.truthy username
    then Some ("/usr/local/etc/" +:+ username
               +:+ "/network-location-config.json")
    else None);
   Some "/usr/local/etc/network-location-config.json";
   Some "/etc/network-location-config.json"].

Fixpoint config_paths_filtered (paths : list (option string)) : list string :=
  match paths with
  | [] => []
  | Some path :: rest => path :: config_paths_filtered rest
  | None :: rest => config_paths_filtered rest
  end.

(** [for config_path in config_paths_filtered: ...]: the configuration
    of the first file that can be read, if any. *)
Fixpoint search (d : disk) (paths : list string)
  : option pyval * list output :=
  match paths with
  | [] => (None, [])
  | config_path :: rest =>
      if isfile d config_path then
        match json_load d config_path with
        | ReadOk config =>
            (Some config,
             [Stamped ("Loaded configuration from: " +:+ config_path)])
        | ReadFails e =>
            let '(r, o) := search d rest in
            (r, Line ("Error reading config file " +:+ config_path
                      +:+ ": " +:+ e) :: o)
        end
      else search d rest
  end.

(** The standard search, then [create_default_config]. *)
Definition standard_search (config_file_arg : option string) (d : disk)
  : ending pyval * disk * list output :=
  match search d (config_paths_filtered (config_paths config_file_arg)) with
  | (Some config, o) => (Returns config, d, o)
  | (None, o) =>
      let '(r, d', o') := create_default_config d in (r, d', o ++ o')
  end.

End Loading.

(** *** [src/network-location-switcher.py] *)

Module ScriptLoader.

(** The result of [parse_args]: the configuration file, or the exit
    status of [sys.exit]. *)
Inductive parsed :=
| Parsed (config_file : option string)
| Exits (code : Z).

Definition parse_args (argv : list string) : parsed * list output :=
  match argv with
  | _ :: arg :: _ =>
      if member arg ["--help"; "-h"; "help"] then (Exits 0, [HelpText])
      else if member arg ["--version"; "-v"; "version"]
      then (Exits 0, [VersionText])
      else if PyStr.startswith arg "-" then
        (Exits 1,
         [Line ("Unknown option: " +:+ arg);
          Line "Use --help for usage information."])
      else (Parsed (Some arg), [])
  | _ => (Parsed None, [])
  end.

Definition load_config (os : host) (username : string)
    (write_error : string -> option string) (log_file : option string)
    (argv : list string) (d : disk) : ending pyval * disk * list output :=
  match parse_args argv with
  | (Exits code, o) => (SystemExit code, d, o)
  | (Parsed config_file_arg, o) =>
      let '(r, d', o') :=
        standard_search os username write_error log_file
          "/usr/local/log/network-location-switcher.log" config_file_arg d in
      (r, d', o ++ o')
  end.

End ScriptLoader.

(** *** [src/network_loc_switcher/network_loc_switcher.py] *)

Module PackageLoader.

Inductive TestMode := NONE | NOTIFICATION | NETWORK | LOCATION | ALL.

Inductive ConfigMode := AUTO | SYSTEM | USER | DEV.

(** The string of a mode, as the messages show it. *)
Definition mode_name (mode : ConfigMode) : string :=
  match mode with
  | AUTO => "auto"
  | SYSTEM => "system"
  | USER => "user"
  | DEV => "dev"
  end.

(** The result of [parse_args]: the configuration file with the two
    globals [_test_mode] and [_config_mode], or the exit status of
    [sys.exit]. *)
Inductive parsed :=
| Parsed (config_file : option string) (_test_mode : TestMode)
         (_config_mode : ConfigMode)
| Exits (code : Z).

(** The [while] loop over [sys.argv[i:]]. *)
Fixpoint parse_loop (args : list string) (config_file : option string)
    (_test_mode : TestMode) (_config_mode : ConfigMode)
  : parsed * list output :=
  match args with
  | [] => (Parsed config_file _test_mode _config_mode, [])
  | arg :: rest =>
      if member arg ["--help"; "-h"; "help"] then (Exits 0, [HelpText])
      else if member arg ["--version"; "-v"; "version"]
      then (Exits 0, [VersionText])
      else if member arg ["--configuration_file"; "--config"; "-c"] then
        match rest with
        | file :: rest' => parse_loop rest' (Some file) _test_mode _config_mode
        | [] => (Exits 1, [Line (arg +:+ " requires a file path argument")])
        end
      else if member arg ["--mode"; "-m"] then
        match rest with
        | next :: rest' =>
            let mode := lower next in
            if member mode ["system"; "sys"; "s"]
            then parse_loop rest' config_file _test_mode SYSTEM
            else if member mode ["user"; "usr"; "u"]
            then parse_loop rest' config_file _test_mode USER
            else if member mode ["dev"; "development"; "d"]
            then parse_loop rest' config_file _test_mode DEV
            else if member mode ["auto"; "a"]
            then parse_loop rest' config_file _test_mode AUTO
            else
              (Exits 1,
               [Line ("Unknown mode: " +:+ mode);
                Line "Available modes: system, user, dev, auto"])
        | [] =>
            (Exits 1,
             [Line "--mode requires an argument: system, user, dev, or auto"])
        end
      else if member arg ["--test"; "-t"] then
        match rest with
        | next :: rest' =>
            if negb (PyStr.startswith next "-") then
              let test_type := lower next in
              if member test_type ["notification"; "notify"; "n"]
              then parse_loop rest' config_file NOTIFICATION _config_mode
              else if member test_type ["network"; "net"]
              then parse_loop rest' config_file NETWORK _config_mode
              else if member test_type ["location"; "loc"]
              then parse_loop rest' config_file LOCATION _config_mode
              else if member test_type ["all"; "a"]
              then parse_loop rest' config_file ALL _config_mode
              else parse_loop rest config_file ALL _config_mode
            else parse_loop rest config_file ALL _config_mode
        | [] => parse_loop rest config_file ALL _config_mode
        end
      else if String.eqb arg "--test-notification"
      then parse_loop rest config_file NOTIFICATION _config_mode
      else if String.eqb arg "--test-network"
      then parse_loop rest config_file NETWORK _config_mode
      else if String.eqb arg "--test-location"
      then parse_loop rest config_file LOCATION _config_mode
      else if PyStr.startswith arg "-" then
        (Exits 1,
         [Line ("Unknown option: " +:+ arg);
          Line "Use --help for usage information."])
      else
        (Exits 1,
         [Line ("Unexpected argument: " +:+ arg);
          Line "Use -c or --configuration_file to specify a config file.";
          Line "Use --help for usage information."])
  end.

(** [parse_args()], from the initial values of the two globals. *)
Definition parse_args (argv : list string) : parsed * list output :=
  parse_loop (List.tl argv) None NONE AUTO.

Section Loader.
Context (os : host) (username : string).
Context (write_error : string -> option string) (log_file : option string).

Definition get_config_path_for_mode (mode : ConfigMode)
  : option string * list output :=
  match mode with
  | SYSTEM => (Some "/usr/local/etc/network-location-config.json", [])
  | USER =>
      if PyStr.truthy username
      then (Some ("/usr/local/etc/" +:+ username
                  +:+ "/network-location-config.json"), [])
      else (None,
            [Line "Error: Cannot determine username for user mode config"])
  | DEV =>
      (Some (PyPath.join (script_dir os) "network-location-config.json"), [])
  | AUTO => (None, [])
  end.

Definition load_config (argv : list string) (d : disk)
  : ending pyval * disk * list output :=
  match parse_args argv with
  | (Exits code, o) => (SystemExit code, d, o)
  | (Parsed config_file_arg _ config_mode, o) =>
      let standard (o1 : list output) :=
        let '(r, d', o') :=
          standard_search os username write_error log_file
            "/usr/local/log/network_loc_switcher.log" config_file_arg d in
        (r, d', o1 ++ o') in
      match config_mode with
      | AUTO => standard o
      | _ =>
          let '(mode_config_path, o1) :=
            get_config_path_for_mode config_mode in
          if PyStr.truthy_opt mode_config_path then
            let path := PyStr.format_opt mode_config_path in
            if isfile d path then
              match json_load d path with
              | ReadOk config =>
                  (Returns config, d,
                   o ++ o1
                   ++ [Stamped ("Loaded configuration from: " +:+ path
                                +:+ " (mode: " +:+ mode_name config_mode
                                +:+ ")")])
              | ReadFails e =>
                  (SystemExit 1, d,
                   o ++ o1
                   ++ [Line ("Error reading config file " +:+ path
                             +:+ ": " +:+ e)])
              end
            else
              (SystemExit 1, d,
               o ++ o1
               ++ [Line ("Error: Config file not found for mode '"
                         +:+ mode_name config_mode +:+ "': " +:+ path)])
          else standard (o ++ o1)
      end
  end.

End Loader.
End PackageLoader.

(** The argument [x] stands where [parse_args] takes it as the value
    of [flag]: a configuration file, a known mode, or a known test
    type. *)
Definition accepted_after (flag x : string) : bool :=
  member flag ["--configuration_file"; "--config"; "-c"]
  || (member flag ["--mode"; "-m"]
      && member (lower x)
           ["system"; "sys"; "s"; "user"; "usr"; "u";
            "dev"; "development"; "d"; "auto"; "a"])
  || (member flag ["--test"; "-t"]
      && member (lower x)
           ["notification"; "notify"; "n"; "network"; "net";
            "location"; "loc"; "all"; "a"]).

(** Every argument of [args] that is no option follows a flag that
    takes it. *)
Definition no_free_argument (args : list string) : Prop :=
  forall before x after,
    args = before ++ x :: after ->
    PyStr.startswith x "-" = false ->
    exists before' flag,
      before = before' ++ [flag] /\ accepted_after flag x = true.

(** ** More observations on traces *)

(** The event is a line of the log. *)
Definition is_log_line (ev : event) : bool :=
  match ev with
  | FileAppend _ _ | StderrLine _ => true
  | _ => false
  end.

(** The queries of the wired ports [ports], as [ethernet_active] issues
    them. *)
Definition port_queries (ports : list string) : list event :=
  List.map (fun port => Exec (ifconfig_command port)) ports.

(** The Wi-Fi port is listed, and the preferred-networks program cannot
    be started. *)
Definition missing_program_host : host :=
  table_host
    [(list_ports_command, Exited 0 sample_ports);
     (preferred_networks_command "en0",
      NotStarted "No such file or directory: '/usr/sbin/networksetup'")].

(** Every sub-query that fails, in whatever way, resolves to the absent
    value: stated for the SSID query of [get_current_ssid]. *)
Definition failed_query_reads_absent : Prop :=
  forall (os : host) (g : globals) (h : history) (iface : string),
    result (get_wifi_interface os g) h = Ret (Some iface) ->
    is_Some (failure_of (preferred_networks_command iface)
               (run_process os (h ++ effects (get_wifi_interface os g) h)
                  (preferred_networks_command iface))) ->
    result (get_current_ssid os g) h = Ret None.

(** A listing whose first Wi-Fi port has no device line. *)
Definition two_wifi_ports : string :=
  "Hardware Port: Wi-Fi" +:+ NL
  +:+ "Ethernet Address: 00:00:00:00:00:01" +:+ NL +:+ NL
  +:+ "Hardware Port: Wi-Fi" +:+ NL +:+ "Device: en1" +:+ NL
  +:+ "Ethernet Address: 00:00:00:00:00:02" +:+ NL.

(** Two wired ports with link and address, and Wi-Fi on en0. *)
Definition two_wired_ports : string :=
  "Hardware Port: Ethernet" +:+ NL +:+ "Device: en5" +:+ NL +:+ NL
  +:+ "Hardware Port: Thunderbolt Ethernet" +:+ NL +:+ "Device: en6" +:+ NL
  +:+ NL
  +:+ "Hardware Port: Wi-Fi" +:+ NL +:+ "Device: en0" +:+ NL.

Definition two_wired_host : host :=
  table_host
    [(list_ports_command, Exited 0 two_wired_ports);
     (ifconfig_command "en5",
      Exited 0 (link_only +:+ "	inet 192.168.1.20 netmask 0xffffff00"));
     (ifconfig_command "en6",
      Exited 0 (link_only +:+ "	inet 192.168.1.21 netmask 0xffffff00"))].

(** A configuration to repair: the SSID map is a string, the log
    directory is missing, and there is a key of the user's own. *)
Definition untidy_config : gmap string pyval :=
  <["log_file" := PStr "/var/log/nls/switcher.log"]>
    (<["note" := PStr "office laptop"]>
       (<["ethernet_location" := PStr "Docked"]>
          (<["ssid_location_map" := PStr "HomeNet=Home"]> ∅))).

(** What [ifconfig] prints shows the link and an IPv4 address. *)
Definition link_and_address (if_output : string) : bool :=
  PyStr.contains "status: active" if_output
  && PyStr.contains "inet " if_output.

(** Queried one after the other from [h], none of [ports] shows the
    link and an address. *)
Fixpoint all_inactive (os : host) (h : history) (ports : list string)
  : Prop :=
  match ports with
  | [] => True
  | port :: rest =>
      (exists out,
         result (run_command os (ifconfig_command port)) h = Ret out
         /\ link_and_address out = false)
      /\ all_inactive os (h ++ [Exec (ifconfig_command port)]) rest
  end.

(** The command is one of the queries of the probes: the port listing,
    or the preferred-networks query, the [ifconfig | grep] line or the
    [ifconfig] line for some name. *)
Definition is_probe_query (cmd : command) : Prop :=
  cmd = list_ports_command
  \/ exists name,
       cmd = preferred_networks_command name
       \/ cmd = wifi_status_command name
       \/ cmd = ifconfig_command name.

(** The event is a query of the probes or a line of the log. *)
Definition probe_event (ev : event) : Prop :=
  match ev with
  | Exec cmd => is_probe_query cmd
  | FileAppend _ _ | StderrLine _ => True
  | MakeDirs _ => False
  end.

(** The profile is one the configuration names. *)
Definition configured (g : globals) (target : string) : Prop :=
  target = ETHERNET_LOCATION g
  \/ target = DEFAULT_WIFI_LOCATION g
  \/ exists ssid, SSID_LOCATION_MAP g !! ssid = Some target.

(** * Properties *)

(** ** The mapping resolver *)

(** The target that [network_changed] passes to [switch_location],
    under any configuration [g]. *)
Section Resolution.
Context (g : globals).

(** C1. The target chosen inside [network_changed], in both scripts:
    the wired profile when the wired link is active; otherwise, with
    Wi-Fi active and a non-empty SSID, the profile the SSID map gives
    for that SSID, and the default Wi-Fi profile when the SSID is not a
    key of the map; otherwise the default Wi-Fi profile. *)
Theorem choose_target_resolution (ssid : option string) (wifi wired : bool) :
  let target := fst (Package.choose_target g ssid wifi wired) in
  fst (Script.choose_target g ssid wifi wired) = target
  /\ (wired = true -> target = ETHERNET_LOCATION g)
  /\ (wired = false -> wifi = true ->
      forall s, ssid = Some s -> s <> "" ->
        (forall p, SSID_LOCATION_MAP g !! s = Some p -> target = p)
        /\ (SSID_LOCATION_MAP g !! s = None ->
            target = DEFAULT_WIFI_LOCATION g))
  /\ (wired = false ->
      wifi = false \/ ssid = None \/ ssid = Some "" ->
      target = DEFAULT_WIFI_LOCATION g).
Proof.
  cbn zeta. split; [reflexivity|]. split; [|split].
  - intros ->. reflexivity.
  - intros -> -> s -> Hs. unfold Package.choose_target.
    destruct s as [|c s]; [congruence|]. cbn.
    split.
    + intros p ->. reflexivity.
    + intros ->. reflexivity.
  - intros -> [-> | [-> | ->]]; unfold Package.choose_target; cbn.
    + reflexivity.
    + destruct wifi; reflexivity.
    + destruct wifi; reflexivity.
Qed.

(** C2. Wired precedence: with the wired link active the target is the
    wired profile, whatever the Wi-Fi flag and the SSID are. *)
Theorem wired_takes_precedence (ssid : option string) (wifi : bool) :
  fst (Package.choose_target g ssid wifi true) = ETHERNET_LOCATION g
  /\ fst (Script.choose_target g ssid wifi true) = ETHERNET_LOCATION g.
Proof. split; reflexivity. Qed.

End Resolution.

(** Witness of C1 on the configuration of the end-to-end scenarios. *)
Lemma choose_target_resolution_witness :
  fst (Package.choose_target sample_globals (Some "HomeNet") true false)
  = "Home"
  /\ fst (Package.choose_target sample_globals (Some "OfficeNet") true false)
     = "Automatic"
  /\ fst (Package.choose_target sample_globals (Some "HomeNet") true true)
     = "Wired"
  /\ fst (Package.choose_target sample_globals None true false) = "Automatic".
Proof.
  pose proof (choose_target_resolution sample_globals (Some "HomeNet") true false)
    as (_ & _ & Hmapped & _).
  pose proof (choose_target_resolution sample_globals (Some "OfficeNet") true false)
    as (_ & _ & Hunmapped & _).
  pose proof (choose_target_resolution sample_globals (Some "HomeNet") true true)
    as (_ & Hwired & _ & _).
  pose proof (choose_target_resolution sample_globals None true false)
    as (_ & _ & _ & Hnone).
  cbn zeta in *.
  split; [|split; [|split]].
  - refine (proj1 (Hmapped eq_refl eq_refl "HomeNet" eq_refl _) "Home" _).
    + discriminate.
    + vm_compute. reflexivity.
  - refine (proj2 (Hunmapped eq_refl eq_refl "OfficeNet" eq_refl _) _).
    + discriminate.
    + vm_compute. reflexivity.
  - exact (Hwired eq_refl).
  - apply (Hnone eq_refl). right. left. reflexivity.
Defined.

(** ** Reasoning about computations *)

Ltac unfold_M :=
  unfold mbind, M_bind, mret, M_ret, bind, ret, raise, emit, ask in *.

Lemma bind_returns {A B} (m : M A) (f : A -> M B) (h : history) (a : A) :
  result m h = Ret a ->
  result (m ≫= f) h = result (f a) (h ++ effects m h)
  /\ effects (m ≫= f) h = effects m h ++ effects (f a) (h ++ effects m h).
Proof.
  unfold result, effects. unfold_M. destruct (m h) as [r t]. cbn.
  intros ->. destruct (f a (h ++ t)); split; reflexivity.
Qed.

Lemma bind_raises {A B} (m : M A) (f : A -> M B) (h : history) (e : exn) :
  result m h = Raise e ->
  result (m ≫= f) h = Raise e /\ effects (m ≫= f) h = effects m h.
Proof.
  unfold result, effects. unfold_M. destruct (m h) as [r t]. cbn.
  intros ->. split; reflexivity.
Qed.

Lemma returns_ret {A} (a : A) : returns (mret a : M A).
Proof. intros h. exists a. reflexivity. Qed.

Lemma returns_bind {A B} (m : M A) (f : A -> M B) :
  returns m -> (forall a, returns (f a)) -> returns (m ≫= f).
Proof.
  intros Hm Hf h. destruct (Hm h) as [a Ha].
  destruct (bind_returns m f h a Ha) as [-> _]. apply Hf.
Qed.

Lemma returns_ask {A} (q : history -> A) : returns (ask q).
Proof. intros h. exists (q h). reflexivity. Qed.

(** A [try] whose [except Exception] handler never raises never raises. *)
Lemma returns_try_all {A} (m : M A) (handler : exn -> M A) :
  (forall e, returns (handler e)) ->
  returns (try_except m is_Exception handler).
Proof.
  intros Hh h. unfold result, try_except.
  destruct (m h) as [[a|e] t]; cbn.
  - exists a. reflexivity.
  - destruct (Hh e (h ++ t)) as [a Ha]. unfold result in Ha.
    destruct (handler e (h ++ t)) as [r t2]. cbn in *. subst r.
    exists a. reflexivity.
Qed.

Lemma switch_count_app (a b : list event) :
  switch_count (a ++ b) = (switch_count a + switch_count b)%nat.
Proof. unfold switch_count. rewrite List.filter_app, length_app. reflexivity. Qed.

Lemma logged_app (msg : string) (a b : list event) :
  logged msg (a ++ b) = logged msg a || logged msg b.
Proof. unfold logged. apply existsb_app. Qed.

(** ** The subprocess helpers and the log, in closed form *)

Lemma run_command_eq (os : host) (cmd : command) (h : history) :
  run_command os cmd h =
  match run_process os h cmd with
  | Exited rc out => (Ret (if rc =? 0 then PyStr.strip out else ""), [Exec cmd])
  | NotStarted d => (Raise (OSError d), [Exec cmd])
  end.
Proof.
  unfold run_command, try_except, check_output. unfold_M.
  destruct (run_process os h cmd) as [rc out|d]; [|reflexivity].
  destruct (rc =? 0); reflexivity.
Qed.


Lemma get_current_location_eq (os : host) (h : history) :
  get_current_location os h =
  (Ret match run_process os h scselect_command with
       | Exited rc out =>
           if rc =? 0 then active_location (PyStr.splitlines out) else None
       | NotStarted _ => None
       end,
   [Exec scselect_command]).
Proof.
  unfold get_current_location, try_except, check_output. unfold_M.
  destruct (run_process os h scselect_command) as [rc out|d]; [|reflexivity].
  destruct (rc =? 0); reflexivity.
Qed.

Lemma say_eq (os : host) (g : globals) (msg : string) (h : history) :
  say os g msg h = (Ret tt, effects (say os g msg) h).
Proof.
  unfold effects, say, log. destruct (append_line os h (LOG_FILE g)); reflexivity.
Qed.

Lemma returns_say (os : host) (g : globals) (msg : string) :
  returns (say os g msg).
Proof. intros h. exists tt. unfold result. rewrite say_eq. reflexivity. Qed.

Lemma say_no_switch (os : host) (g : globals) (msg : string) (h : history) :
  switch_count (effects (say os g msg) h) = 0%nat.
Proof.
  unfold effects, say, log. destruct (append_line os h (LOG_FILE g)); reflexivity.
Qed.

Lemma say_logged (os : host) (g : globals) (msg : string) (h : history) :
  logged msg (effects (say os g msg) h) = true.
Proof.
  unfold effects, say, log, logged.
  destruct (append_line os h (LOG_FILE g)); cbn;
    rewrite String.eqb_refl; reflexivity.
Qed.

(** ** Notifications never raise *)

Lemma returns_first_executable (os : host) (paths : list string) :
  returns (Package.first_executable os paths).
Proof.
  induction paths as [|path rest IH]; cbn [Package.first_executable].
  - apply returns_ret.
  - apply returns_bind; [apply returns_ask|].
    intros [|]; [apply returns_ret|exact IH].
Qed.

Lemma returns_send_notification_notifytool (os : host) (g : globals)
    (title message : string) (subtitle : option string) :
  returns (Package.send_notification_notifytool os g title message subtitle).
Proof.
  unfold Package.send_notification_notifytool.
  apply returns_bind; [apply returns_first_executable|].
  intros path. destruct (negb (PyStr.truthy_opt path)); [apply returns_ret|].
  apply returns_try_all. intros e.
  apply returns_bind; [apply returns_say|]. intros _. apply returns_ret.
Qed.

Lemma returns_send_notification_osascript (os : host) (g : globals)
    (title message : string) :
  returns (Package.send_notification_osascript os g title message).
Proof.
  unfold Package.send_notification_osascript.
  apply returns_try_all. intros e.
  apply returns_bind; [apply returns_say|]. intros _. apply returns_ret.
Qed.

Lemma returns_send_notification (os : host) (g : globals)
    (title message : string) (subtitle : option string) :
  returns (Package.send_notification os g title message subtitle).
Proof.
  unfold Package.send_notification.
  apply returns_bind; [apply returns_send_notification_notifytool|].
  intros [|]; [apply returns_ret|].
  apply returns_bind; [apply returns_send_notification_osascript|].
  intros [|]; cbn [negb]; [apply returns_ret|apply returns_say].
Qed.

Lemma send_notification_eq (os : host) (g : globals)
    (title message : string) (subtitle : option string) (h : history) :
  Package.send_notification os g title message subtitle h =
  (Ret tt, effects (Package.send_notification os g title message subtitle) h).
Proof.
  destruct (returns_send_notification os g title message subtitle h) as [[] Hr].
  unfold result, effects in *.
  destruct (Package.send_notification os g title message subtitle h) as [r t].
  cbn in *. subst r. reflexivity.
Qed.

(** ** [switch_location] in closed form *)

Ltac norm_trace :=
  unfold effects; cbn [fst snd];
  repeat first [rewrite <- app_assoc | progress (cbn [app])].

Lemma get_current_location_effects (os : host) (h : history) :
  effects (get_current_location os) h = [Exec scselect_command].
Proof. unfold effects. rewrite get_current_location_eq. reflexivity. Qed.

Lemma before_switch_eq (os : host) (g : globals) (target : string)
    (h : history) (c : option string) :
  result (get_current_location os) h = Ret c ->
  before_switch os g target h =
  (h ++ [Exec scselect_command])
  ++ effects (say os g ("Current location: " +:+ PyStr.format_opt c
                        +:+ ", target: " +:+ target))
       (h ++ [Exec scselect_command]).
Proof.
  intros Hc. unfold before_switch. rewrite Hc.
  rewrite !get_current_location_effects. reflexivity.
Qed.

(** The active profile is the target: only the two log lines. *)
Lemma switch_location_idle (os : host) (g : globals) (target : string)
    (h : history) :
  result (get_current_location os) h = Ret (Some target) ->
  let hs := before_switch os g target h in
  let t := effects (say os g ("Already on location: " +:+ target)) hs in
  h ++ effects (Package.switch_location os g target) h = hs ++ t
  /\ result (Package.switch_location os g target) h = Ret tt
  /\ Script.switch_location os g target h
     = Package.switch_location os g target h.
Proof.
  intros Hc hs t. subst hs t. rewrite (before_switch_eq _ _ _ _ _ Hc).
  unfold result, effects in Hc |- *.
  unfold Package.switch_location, Script.switch_location. unfold_M.
  rewrite get_current_location_eq in *. cbn in Hc. injection Hc as Hc.
  rewrite Hc. rewrite say_eq. unfold already_on. rewrite String.eqb_refl.
  cbn [negb]. rewrite say_eq. cbn [fst snd].
  rewrite <- !app_assoc. auto.
Qed.

(** The active profile is not the target: the switch is issued once,
    its outcome is logged, and only a successful switch is followed by
    the notification. *)
Lemma package_switch_attempt (os : host) (g : globals) (target : string)
    (h : history) (c : option string) :
  result (get_current_location os) h = Ret c ->
  already_on c target = false ->
  let hs := before_switch os g target h in
  let h1 := hs ++ [Exec (switch_command target)] in
  result (Package.switch_location os g target) h = Ret tt
  /\ h ++ effects (Package.switch_location os g target) h =
     match failure_of (switch_command target)
             (run_process os hs (switch_command target)) with
     | None =>
         let t := effects (say os g (switched_line target)) h1 in
         h1 ++ t
         ++ effects
              (Package.send_notification os g "Network Location Switched"
                 ("Switched to '" +:+ target +:+ "' network location") None)
              (h1 ++ t)
     | Some e => h1 ++ effects (say os g (failed_line os target e)) h1
     end.
Proof.
  intros Hc Hne hs h1. subst hs h1. rewrite (before_switch_eq _ _ _ _ _ Hc).
  unfold result, effects in Hc |- *.
  unfold Package.switch_location. unfold_M.
  rewrite get_current_location_eq in *. cbn in Hc. injection Hc as Hc.
  rewrite Hc. rewrite say_eq. rewrite Hne. cbn [negb].
  unfold try_except, run_checked, check_output, failure_of, switched_line,
    failed_line. unfold_M.
  cbn [fst snd]. rewrite <- ?app_assoc. cbn [app].
  match goal with |- context [run_process os ?hh (switch_command target)] =>
    destruct (run_process os hh (switch_command target)) as [rc out|d] end.
  - destruct (rc =? 0).
    + rewrite say_eq, send_notification_eq.
      norm_trace; auto.
    + cbn [is_Exception]. rewrite say_eq. norm_trace; auto.
  - cbn [is_Exception]. rewrite say_eq. norm_trace; auto.
Qed.

Lemma script_switch_attempt (os : host) (g : globals) (target : string)
    (h : history) (c : option string) :
  result (get_current_location os) h = Ret c ->
  already_on c target = false ->
  let hs := before_switch os g target h in
  let h1 := hs ++ [Exec (switch_command target)] in
  result (Script.switch_location os g target) h = Ret tt
  /\ h ++ effects (Script.switch_location os g target) h =
     match failure_of (switch_command target)
             (run_process os hs (switch_command target)) with
     | None => h1 ++ effects (say os g (switched_line target)) h1
     | Some e => h1 ++ effects (say os g (failed_line os target e)) h1
     end.
Proof.
  intros Hc Hne hs h1. subst hs h1. rewrite (before_switch_eq _ _ _ _ _ Hc).
  unfold result, effects in Hc |- *.
  unfold Script.switch_location. unfold_M.
  rewrite get_current_location_eq in *. cbn in Hc. injection Hc as Hc.
  rewrite Hc. rewrite say_eq. rewrite Hne. cbn [negb].
  unfold try_except, run_checked, check_output, failure_of, switched_line,
    failed_line. unfold_M.
  cbn [fst snd]. rewrite <- ?app_assoc. cbn [app].
  match goal with |- context [run_process os ?hh (switch_command target)] =>
    destruct (run_process os hh (switch_command target)) as [rc out|d] end.
  - destruct (rc =? 0).
    + rewrite say_eq. norm_trace; auto.
    + cbn [is_Exception]. rewrite say_eq. norm_trace; auto.
  - cbn [is_Exception]. rewrite say_eq. norm_trace; auto.
Qed.

(** What precedes the switch: reading the active profile and logging
    it; no switch, no outcome line. *)
Lemma say_not_switched (os : host) (g : globals) (target msg : string)
    (h : history) :
  (exists c rest, msg = String c rest /\ Ascii.eqb c "S"%char = false) ->
  logged (switched_line target) (effects (say os g msg) h) = false.
Proof.
  intros (c & rest & -> & Hc). unfold effects, say, log, logged.
  assert (Hhead : exists tail, switched_line target = String "S"%char tail)
    by (eexists; reflexivity).
  destruct Hhead as [tail ->].
  destruct (append_line os h (LOG_FILE g)) as [d|];
    cbn [snd existsb is_log_of String.eqb]; rewrite Hc; reflexivity.
Qed.

Ltac not_switched_line := eexists _, _; split; reflexivity.

Lemma before_switch_split (os : host) (g : globals) (target : string)
    (h : history) :
  exists pre,
    before_switch os g target h = h ++ pre
    /\ switch_count pre = 0%nat
    /\ logged (switched_line target) pre = false.
Proof.
  destruct (get_current_location os h) as [r t] eqn:E.
  rewrite get_current_location_eq in E. injection E as Hr Ht.
  assert (Hc : exists c, result (get_current_location os) h = Ret c).
  { unfold result. rewrite get_current_location_eq. eexists. reflexivity. }
  destruct Hc as [c Hc].
  rewrite (before_switch_eq _ _ _ _ _ Hc). rewrite <- app_assoc.
  eexists. split; [reflexivity|]. split.
  - rewrite switch_count_app, say_no_switch. reflexivity.
  - rewrite logged_app. rewrite say_not_switched by not_switched_line. reflexivity.
Qed.

Lemma switch_command_counts (target : string) :
  is_switch_exec (Exec (switch_command target)) = true.
Proof. reflexivity. Qed.

Lemma repeat_M_no_switch (m : M unit) :
  (forall h, result m h = Ret tt /\ switch_count (effects m h) = 0%nat) ->
  forall n h, switch_count (effects (repeat_M n m) h) = 0%nat.
Proof.
  intros Hm n. induction n as [|n IH]; intros h; cbn [repeat_M].
  - reflexivity.
  - destruct (Hm h) as [Hr Hc].
    destruct (bind_returns m (fun _ => repeat_M n m) h tt Hr) as [_ ->].
    rewrite switch_count_app, Hc, IH. reflexivity.
Qed.

(** C3. Idempotence of the switch executor, in both scripts: when the
    active profile equals the target (as strings), [switch_location]
    issues no switch command and writes no "Switched" line; it returns
    after the "Already on location" line.  Hence any number of triggers
    in a row, with the active profile staying the target, never issues
    the switch command. *)
Theorem switch_location_idempotent (os : host) (g : globals) (target : string) :
  (forall h,
     result (get_current_location os) h = Ret (Some target) ->
     let t := effects (Package.switch_location os g target) h in
     result (Package.switch_location os g target) h = Ret tt
     /\ switch_count t = 0%nat
     /\ logged (switched_line target) t = false
     /\ logged ("Already on location: " +:+ target) t = true
     /\ Script.switch_location os g target h
        = Package.switch_location os g target h)
  /\ ((forall h, result (get_current_location os) h = Ret (Some target)) ->
      forall n h,
        switch_count
          (effects (repeat_M n (Package.switch_location os g target)) h) = 0%nat
        /\ switch_count
             (effects (repeat_M n (Script.switch_location os g target)) h)
           = 0%nat).
Proof.
  assert (Hone : forall h,
     result (get_current_location os) h = Ret (Some target) ->
     let t := effects (Package.switch_location os g target) h in
     result (Package.switch_location os g target) h = Ret tt
     /\ switch_count t = 0%nat
     /\ logged (switched_line target) t = false
     /\ logged ("Already on location: " +:+ target) t = true
     /\ Script.switch_location os g target h
        = Package.switch_location os g target h).
  { intros h Hc t.
    destruct (switch_location_idle os g target h Hc) as (Heff & Hres & Hsame).
    destruct (before_switch_split os g target h) as (pre & Hpre & Hcount & Hlog).
    rewrite Hpre, <- app_assoc in Heff. apply app_inv_head in Heff.
    subst t. rewrite Heff.
    rewrite switch_count_app, !logged_app, Hcount, Hlog, say_no_switch,
      say_logged.
    rewrite say_not_switched by not_switched_line.
    rewrite orb_true_r. auto. }
  split; [exact Hone|].
  intros Hall n h. split.
  - apply repeat_M_no_switch. intros h'.
    destruct (Hone h' (Hall h')) as (Hr & Hc & _). auto.
  - apply repeat_M_no_switch. intros h'.
    destruct (Hone h' (Hall h')) as (Hr & Hc & _ & _ & Hsame).
    unfold result, effects in *. rewrite Hsame. auto.
Qed.

(** Witness of C3: the listing marks "Home", the target is "Home". *)
Lemma switch_location_idempotent_witness :
  switch_count
    (effects (Package.switch_location (host_on "Home") sample_globals "Home") [])
  = 0%nat
  /\ switch_count
       (effects
          (repeat_M 3 (Script.switch_location (host_on "Home") sample_globals "Home"))
          [])
     = 0%nat.
Proof.
  destruct (switch_location_idempotent (host_on "Home") sample_globals "Home")
    as [Hone Hmany].
  split.
  - apply (Hone []). vm_compute. reflexivity.
  - apply (Hmany (fun h => eq_refl) 3%nat []).
Defined.

(** ** The active-profile reader *)

Lemma already_on_false (c : option string) (target : string) :
  c <> Some target -> already_on c target = false.
Proof.
  destruct c as [s|]; cbn; [|reflexivity].
  intros Hne. destruct (String.eqb_spec s target); congruence.
Qed.

Lemma active_location_unmarked (lines : list string) :
  (forall line, In line lines -> is_marked line = false) ->
  active_location lines = None.
Proof.
  induction lines as [|line rest IH]; intros Hno; cbn [active_location].
  - reflexivity.
  - pose proof (Hno line (or_introl eq_refl)) as Hline.
    unfold is_marked in Hline. rewrite Hline.
    apply IH. intros l Hl. apply Hno. right. exact Hl.
Qed.

(** Once the switch is attempted, its command is in the trace. *)
Lemma switch_attempted (os : host) (g : globals) (target : string)
    (h : history) (c : option string) :
  result (get_current_location os) h = Ret c ->
  c <> Some target ->
  In (Exec (switch_command target))
     (effects (Package.switch_location os g target) h)
  /\ In (Exec (switch_command target))
        (effects (Script.switch_location os g target) h).
Proof.
  intros Hc Hne. apply already_on_false in Hne.
  destruct (package_switch_attempt os g target h c Hc Hne) as [_ Hp].
  destruct (script_switch_attempt os g target h c Hc Hne) as [_ Hs].
  destruct (before_switch_split os g target h) as (pre & Hpre & _ & _).
  cbv zeta in Hp, Hs. rewrite Hpre in Hp, Hs.
  split.
  - destruct (failure_of _ _); rewrite <- !app_assoc in Hp;
      apply app_inv_head in Hp; rewrite Hp;
      apply in_or_app; right; left; reflexivity.
  - destruct (failure_of _ _); rewrite <- !app_assoc in Hs;
      apply app_inv_head in Hs; rewrite Hs;
      apply in_or_app; right; left; reflexivity.
Qed.

(** C4, as amended.  The active-profile reader never raises.  It
    returns [None] whenever the listing command fails (another exit
    status than 0, or the program cannot be started) and whenever no
    line of the listing is marked with a star.  A [None] profile differs
    from every target: [switch_location] then issues the switch, in both
    scripts. *)
Theorem current_location_unknown (os : host) (g : globals) (h : history) :
  (exists c, result (get_current_location os) h = Ret c)
  /\ (forall e,
        failure_of scselect_command (run_process os h scselect_command)
        = Some e ->
        result (get_current_location os) h = Ret None)
  /\ (forall out,
        run_process os h scselect_command = Exited 0 out ->
        (forall line, In line (PyStr.splitlines out) -> is_marked line = false) ->
        result (get_current_location os) h = Ret None)
  /\ (result (get_current_location os) h = Ret None ->
      forall target,
        In (Exec (switch_command target))
           (effects (Package.switch_location os g target) h)
        /\ In (Exec (switch_command target))
              (effects (Script.switch_location os g target) h)).
Proof.
  unfold result at 1 2 3. rewrite get_current_location_eq. cbn [fst].
  split; [eexists; reflexivity|]. split; [|split].
  - intros e. unfold failure_of.
    destruct (run_process os h scselect_command) as [rc out|d];
      [|reflexivity].
    destruct (rc =? 0); [discriminate|reflexivity].
  - intros out -> Hno. cbn. rewrite active_location_unmarked by exact Hno.
    reflexivity.
  - intros Hnone target. apply (switch_attempted os g target h None Hnone).
    discriminate.
Qed.

(** Witness of C4: a listing without a marked line. *)
Lemma current_location_unknown_witness :
  result (get_current_location
            (table_host [(scselect_command, Exited 0 "Defined sets include:")]))
    [] = Ret None
  /\ In (Exec (switch_command "Home"))
        (effects
           (Package.switch_location
              (table_host [(scselect_command, Exited 0 "Defined sets include:")])
              sample_globals "Home") []).
Proof.
  pose proof (current_location_unknown
                (table_host [(scselect_command, Exited 0 "Defined sets include:")])
                sample_globals [])
    as (_ & _ & Hunmarked & Hattempt).
  assert (Hnone : result (get_current_location
            (table_host [(scselect_command, Exited 0 "Defined sets include:")]))
    [] = Ret None).
  { apply (Hunmarked "Defined sets include:"); [reflexivity|].
    intros line [<- | []]. vm_compute. reflexivity. }
  split; [exact Hnone|]. apply (Hattempt Hnone "Home").
Defined.

(** C4, as stated, fails: a marked line without the parenthesised name
    cannot be parsed, yet the reader returns a string cut out of it. *)
Lemma current_location_malformed_line :
  run_process malformed_host [] scselect_command = Exited 0 malformed_listing
  /\ listing_parses (PyStr.splitlines malformed_listing) = false
  /\ result (get_current_location malformed_host) [] = Ret (Some "Hom")
  /\ ~ unparsable_reads_None.
Proof.
  split; [reflexivity|]. split; [reflexivity|]. split; [reflexivity|].
  intros Hclaim.
  specialize (Hclaim malformed_host [] malformed_listing eq_refl eq_refl).
  vm_compute in Hclaim. discriminate.
Qed.

(** ** Failure of the switch *)

Lemma prefix_app (x rest : string) : String.prefix x (x +:+ rest) = true.
Proof.
  induction x as [|c x IH].
  - destruct rest; reflexivity.
  - change (String c x +:+ rest) with (String c (x +:+ rest)).
    cbn [String.prefix]. destruct (ascii_dec c c); [exact IH|congruence].
Qed.

Lemma contains_here (x rest : string) : PyStr.contains x (x +:+ rest) = true.
Proof.
  pose proof (prefix_app x rest) as Hp.
  destruct (x +:+ rest); cbn [PyStr.contains]; rewrite Hp; reflexivity.
Qed.

Lemma contains_later (x front s : string) :
  PyStr.contains x s = true -> PyStr.contains x (front +:+ s) = true.
Proof.
  intros Hs. induction front as [|c front IH].
  - exact Hs.
  - change (String c front +:+ s) with (String c (front +:+ s)).
    cbn [PyStr.contains]. rewrite IH. apply orb_true_r.
Qed.

Lemma app_empty_r (x : string) : x +:+ "" = x.
Proof.
  induction x as [|c x IH]; [reflexivity|].
  change (String c x +:+ "") with (String c (x +:+ "")). rewrite IH.
  reflexivity.
Qed.

Lemma contains_self (x : string) : PyStr.contains x x = true.
Proof.
  pose proof (contains_here x "") as H. rewrite app_empty_r in H. exact H.
Qed.

(** The failure line names the target and carries the error text. *)
Lemma failed_line_contents (os : host) (target : string) (e : exn) :
  PyStr.contains target (failed_line os target e) = true
  /\ PyStr.contains (str_exn os e) (failed_line os target e) = true.
Proof.
  unfold failed_line. split.
  - apply contains_later, contains_here.
  - do 3 apply contains_later. apply contains_self.
Qed.

Lemma switch_failure_trace (os : host) (g : globals) (target : string)
    (e : exn) (m : M unit) (h : history) :
  result m h = Ret tt ->
  (let h1 := before_switch os g target h ++ [Exec (switch_command target)] in
   h ++ effects m h = h1 ++ effects (say os g (failed_line os target e)) h1) ->
  fails_quietly os target e m h.
Proof.
  cbv zeta. intros Hr Heff.
  destruct (before_switch_split os g target h) as (pre & Hpre & Hcount & Hlog).
  rewrite Hpre, <- !app_assoc in Heff. apply app_inv_head in Heff.
  unfold fails_quietly. rewrite Heff.
  rewrite !switch_count_app, !logged_app, Hcount, Hlog, say_no_switch,
    say_logged.
  rewrite say_not_switched by not_switched_line.
  rewrite !orb_true_r. cbn. auto.
Qed.

(** C5. When the switch command fails (another exit status than 0, or
    the program cannot be started), [switch_location] returns without
    raising, in both scripts; it has issued the switch exactly once, and
    has logged a line that contains the target and the error text, and
    no success line.  Nothing is remembered of the failure: at any later
    trigger where the active profile still differs from the target, the
    switch is issued again. *)
Theorem switch_failure_handled (os : host) (g : globals) (target : string)
    (h : history) (c : option string) (e : exn) :
  result (get_current_location os) h = Ret c ->
  c <> Some target ->
  failure_of (switch_command target)
    (run_process os (before_switch os g target h) (switch_command target))
  = Some e ->
  fails_quietly os target e (Package.switch_location os g target) h
  /\ fails_quietly os target e (Script.switch_location os g target) h
  /\ PyStr.contains target (failed_line os target e) = true
  /\ PyStr.contains (str_exn os e) (failed_line os target e) = true
  /\ (forall h' c',
        result (get_current_location os) h' = Ret c' ->
        c' <> Some target ->
        In (Exec (switch_command target))
           (effects (Package.switch_location os g target) h')
        /\ In (Exec (switch_command target))
              (effects (Script.switch_location os g target) h')).
Proof.
  intros Hc Hne Hfail.
  pose proof (already_on_false c target Hne) as Hoff.
  destruct (package_switch_attempt os g target h c Hc Hoff) as [Hpr Hp].
  destruct (script_switch_attempt os g target h c Hc Hoff) as [Hsr Hs].
  cbv zeta in Hp, Hs. rewrite Hfail in Hp, Hs.
  split; [|split; [|split; [|split]]].
  - apply (switch_failure_trace os g target e _ h); assumption.
  - apply (switch_failure_trace os g target e _ h); assumption.
  - apply failed_line_contents.
  - apply failed_line_contents.
  - intros h' c' Hc' Hne'. apply (switch_attempted os g target h' c' Hc' Hne').
Qed.

(** Witness of C5: the active profile is "Automatic", the switch to
    "Home" exits with status 1. *)
Lemma switch_failure_handled_witness :
  fails_quietly failing_switch_host "Home"
    (CalledProcessError 1 (switch_command "Home"))
    (Package.switch_location failing_switch_host sample_globals "Home") []
  /\ logged
       "Failed to switch to location 'Home': Command returned non-zero exit status"
       (effects (Script.switch_location failing_switch_host sample_globals "Home") [])
     = true.
Proof.
  destruct (switch_failure_handled failing_switch_host sample_globals "Home" []
              (Some "Automatic") (CalledProcessError 1 (switch_command "Home")))
    as (Hp & Hs & _).
  - vm_compute. reflexivity.
  - discriminate.
  - vm_compute. reflexivity.
  - split; [exact Hp|]. destruct Hs as (_ & _ & Hlogged & _). exact Hlogged.
Defined.

(** ** Order of the side effects *)

Lemma returns_package_switch_location (os : host) (g : globals)
    (target : string) (h : history) :
  result (Package.switch_location os g target) h = Ret tt.
Proof.
  assert (Hc : exists c, result (get_current_location os) h = Ret c).
  { unfold result. rewrite get_current_location_eq. eexists. reflexivity. }
  destruct Hc as [c Hc].
  destruct (already_on c target) eqn:Hon.
  - destruct c as [s|]; [|discriminate]. cbn in Hon.
    apply String.eqb_eq in Hon. subst s.
    apply (switch_location_idle os g target h Hc).
  - apply (package_switch_attempt os g target h c Hc Hon).
Qed.

(** C6. A cycle of the package script that performs a switch issues its
    side effects in this order: what precedes the switch (reading and
    logging the active profile: no switch and no outcome line), the
    switch command, the log line of the outcome, and then, only when the
    switch succeeded, the effects of the notification.  Sending the
    notification never raises, and [switch_location] returns whatever
    the notification tools do. *)
Theorem switch_then_log_then_notify (os : host) (g : globals)
    (target : string) (h : history) :
  result (Package.switch_location os g target) h = Ret tt
  /\ (forall title message subtitle,
        returns (Package.send_notification os g title message subtitle))
  /\ (exists pre,
        before_switch os g target h = h ++ pre
        /\ switch_count pre = 0%nat
        /\ logged (switched_line target) pre = false)
  /\ (forall c,
        result (get_current_location os) h = Ret c ->
        c <> Some target ->
        let hs := before_switch os g target h in
        let h1 := hs ++ [Exec (switch_command target)] in
        h ++ effects (Package.switch_location os g target) h =
        match failure_of (switch_command target)
                (run_process os hs (switch_command target)) with
        | None =>
            let t := effects (say os g (switched_line target)) h1 in
            h1 ++ t
            ++ effects
                 (Package.send_notification os g "Network Location Switched"
                    ("Switched to '" +:+ target +:+ "' network location") None)
                 (h1 ++ t)
        | Some e => h1 ++ effects (say os g (failed_line os target e)) h1
        end).
Proof.
  split; [apply returns_package_switch_location|].
  split; [intros; apply returns_send_notification|].
  split; [apply before_switch_split|].
  intros c Hc Hne.
  apply (package_switch_attempt os g target h c Hc (already_on_false _ _ Hne)).
Qed.

(** Witness of C6: the active profile is "Automatic" and the switch to
    "Home" succeeds; no NotifyTool is installed, so the notification
    goes through osascript. *)
Lemma switch_then_log_then_notify_witness :
  effects (Package.switch_location switching_host sample_globals "Home") [] =
  [Exec scselect_command;
   FileAppend (LOG_FILE sample_globals) "Current location: Automatic, target: Home";
   Exec (switch_command "Home");
   FileAppend (LOG_FILE sample_globals) "Switched network location → Home";
   Exec (Argv ["/usr/bin/osascript"; "-e";
               Package.notification_script "Network Location Switched"
                 "Switched to 'Home' network location"])].
Proof.
  pose proof (switch_then_log_then_notify switching_host sample_globals "Home" [])
    as (_ & _ & _ & Horder).
  specialize (Horder (Some "Automatic") eq_refl).
  cbn [app] in Horder. rewrite Horder; [|discriminate].
  vm_compute. reflexivity.
Defined.

(** ** The probes degrade *)


Lemma returns_run_command (os : host) (cmd : command) :
  always_starts os -> returns (run_command os cmd).
Proof.
  intros Hos h. unfold result. rewrite run_command_eq.
  destruct (Hos h cmd) as (rc & out & ->). eexists. reflexivity.
Qed.

Lemma returns_get_wifi_interface (os : host) (g : globals) :
  always_starts os -> returns (get_wifi_interface os g).
Proof.
  intros Hos. unfold get_wifi_interface.
  apply returns_bind; [apply returns_run_command, Hos|].
  intros out. destruct (negb (PyStr.truthy out)).
  - apply returns_bind; [apply returns_say|]. intros _. apply returns_ret.
  - cbv zeta. destruct (PyStr.truthy_opt _); [apply returns_ret|].
    apply returns_bind; [apply returns_say|]. intros _. apply returns_ret.
Qed.

Lemma returns_any_port_active (os : host) (g : globals) (ports : list string) :
  always_starts os -> returns (any_port_active os g ports).
Proof.
  intros Hos. induction ports as [|port rest IH]; cbn [any_port_active].
  - apply returns_ret.
  - apply returns_bind; [apply returns_run_command, Hos|].
    intros out. destruct (_ && _); [|exact IH].
    apply returns_bind; [apply returns_say|]. intros _. apply returns_ret.
Qed.

Lemma returns_probes (os : host) (g : globals) :
  always_starts os ->
  returns (get_current_ssid os g)
  /\ returns (wifi_active os g)
  /\ returns (ethernet_active os g).
Proof.
  intros Hos. split; [|split].
  - unfold get_current_ssid.
    apply returns_bind; [apply returns_get_wifi_interface, Hos|].
    intros [iface|]; [|apply returns_ret].
    destruct (negb (PyStr.truthy iface)); [apply returns_ret|].
    apply returns_bind; [apply returns_run_command, Hos|].
    intros out. destruct (negb (PyStr.truthy out)); apply returns_ret.
  - unfold wifi_active.
    apply returns_bind; [apply returns_get_wifi_interface, Hos|].
    intros [iface|]; [|apply returns_ret].
    destruct (negb (PyStr.truthy iface)); [apply returns_ret|].
    apply returns_bind; [apply returns_run_command, Hos|].
    intros out. apply returns_ret.
  - unfold ethernet_active.
    apply returns_bind; [apply returns_get_wifi_interface, Hos|].
    intros w. apply returns_bind; [apply returns_run_command, Hos|].
    intros out. destruct (negb (PyStr.truthy out)); [apply returns_ret|].
    apply returns_any_port_active, Hos.
Qed.






(** A found interface whose link query prints nothing: Wi-Fi inactive. *)
Example wifi_inactive_when_grep_is_empty :
  let os := table_host [(list_ports_command, Exited 0 sample_ports);
                        (wifi_status_command "en0", Exited 1 "")] in
  result (get_wifi_interface os sample_globals) [] = Ret (Some "en0")
  /\ result (wifi_active os sample_globals) [] = Ret false
  /\ result (get_current_ssid os sample_globals) [] = Ret None.
Proof. vm_compute. auto. Qed.

(** ** Wired and Wi-Fi detection *)









(** ** The two scripts decide alike *)

Lemma same_up_to_notification_refl (os : host) (g : globals)
    (x : outcome unit * list event) :
  same_up_to_notification os g x x.
Proof.
  split; [reflexivity|]. exists []. rewrite app_nil_r.
  split; [reflexivity|left; reflexivity].
Qed.

Lemma bind_same_up_to_notification {A} (os : host) (g : globals)
    (m : M A) (f f' : A -> M unit) (h : history) :
  (forall a h', same_up_to_notification os g (f a h') (f' a h')) ->
  same_up_to_notification os g ((m ≫= f) h) ((m ≫= f') h).
Proof.
  intros Hf. unfold_M. destruct (m h) as [[a|e] t1].
  - destruct (Hf a (h ++ t1)) as (Hr & extra & Ht & Hextra).
    destruct (f a (h ++ t1)) as [r t2], (f' a (h ++ t1)) as [r' t2'].
    cbn in *. subst r' t2'. split; [reflexivity|].
    exists extra. rewrite app_assoc. auto.
  - apply same_up_to_notification_refl.
Qed.

Lemma switch_location_same_up_to_notification (os : host) (g : globals)
    (target : string) (h : history) :
  same_up_to_notification os g
    (Script.switch_location os g target h)
    (Package.switch_location os g target h).
Proof.
  assert (Hc : exists c, result (get_current_location os) h = Ret c).
  { unfold result. rewrite get_current_location_eq. eexists. reflexivity. }
  destruct Hc as [c Hc].
  destruct (already_on c target) eqn:Hon.
  - destruct c as [s|]; [|discriminate]. cbn in Hon.
    apply String.eqb_eq in Hon. subst s.
    destruct (switch_location_idle os g target h Hc) as (_ & _ & ->).
    apply same_up_to_notification_refl.
  - destruct (package_switch_attempt os g target h c Hc Hon) as [Hpr Hp].
    destruct (script_switch_attempt os g target h c Hc Hon) as [Hsr Hs].
    unfold same_up_to_notification. unfold result, effects in *.
    split; [congruence|]. cbv zeta in Hp, Hs.
    destruct (failure_of _ _) as [e|].
    + rewrite <- Hs in Hp. apply app_inv_head in Hp.
      exists []. rewrite app_nil_r. split; [exact Hp|left; reflexivity].
    + eexists. split; [|right; eexists _, _, _; reflexivity].
      apply (app_inv_head h). rewrite (app_assoc h), Hs, Hp.
      rewrite <- !app_assoc. reflexivity.
Qed.

(** C9. The two scripts compute the same target (and the same log line)
    for every configuration, SSID and pair of flags; and a whole run of
    [network_changed] has the same outcome in both, the trace of the
    package script being that of the single-file script followed by
    nothing else than the effects of one notification. *)
Theorem scripts_choose_same_target (os : host) (g : globals) :
  (forall ssid wifi wired,
     Script.choose_target g ssid wifi wired
     = Package.choose_target g ssid wifi wired)
  /\ (forall h,
        same_up_to_notification os g
          (Script.network_changed os g h) (Package.network_changed os g h)).
Proof.
  split; [reflexivity|].
  intros h. unfold Script.network_changed, Package.network_changed.
  apply bind_same_up_to_notification. intros ssid h1.
  apply bind_same_up_to_notification. intros wifi h2.
  apply bind_same_up_to_notification. intros wired h3.
  change (Script.choose_target g ssid wifi wired)
    with (Package.choose_target g ssid wifi wired).
  destruct (Package.choose_target g ssid wifi wired) as [target line].
  apply bind_same_up_to_notification. intros _ h4.
  apply switch_location_same_up_to_notification.
Qed.

(** ** [validate_config] *)

(** While the module loads, [LOG_FILE] is not bound yet: the first
    missing key makes [log] raise, before the default is stored. *)
Lemma fill_defaults_unbound (os : host) (ds : list (string * pyval)) :
  forall (config : gmap string pyval) (h : history),
    (exists key, In key (List.map fst ds) /\ config !! key = None) ->
    fill_defaults os None ds config h = (Raise (NameError "LOG_FILE"), []).
Proof.
  induction ds as [|[key v] rest IH]; intros config h (k & Hin & Hk).
  - destruct Hin.
  - cbn [fill_defaults]. destruct (config !! key) as [x|] eqn:Hkey.
    + apply IH. exists k. split; [|exact Hk].
      destruct Hin as [<- | Hin]; [cbn in Hk; congruence|exact Hin].
    + reflexivity.
Qed.

Lemma validate_config_unbound (os : host) (default_log fallback_name : string)
    (config : gmap string pyval) (h : history) :
  (exists key, In key config_keys /\ config !! key = None) ->
  validate_config_with os None default_log fallback_name config h
  = (Raise (NameError "LOG_FILE"), []).
Proof.
  intros Hmissing. unfold validate_config_with. unfold_M.
  rewrite (fill_defaults_unbound os (defaults default_log)) by exact Hmissing.
  reflexivity.
Qed.

(** C8, on the code.  [validate_config] is called while the module
    loads, before [LOG_FILE] is assigned.  For a configuration that
    lacks one of the four keys it does not return: the warning it logs
    for the first missing key raises [NameError], in both scripts, and
    nothing has been logged or stored. *)
Theorem validate_config_raises_while_loading (os : host)
    (config : gmap string pyval) (h : history) :
  (exists key, In key config_keys /\ config !! key = None) ->
  Package.validate_config os None config h = (Raise (NameError "LOG_FILE"), [])
  /\ Script.validate_config os None config h
     = (Raise (NameError "LOG_FILE"), []).
Proof.
  intros Hmissing. split; apply validate_config_unbound; exact Hmissing.
Qed.

(** Witness of C8: the empty configuration. *)
Lemma validate_config_raises_while_loading_witness :
  Package.validate_config bare_host None ∅ [] = (Raise (NameError "LOG_FILE"), [])
  /\ Script.validate_config bare_host None ∅ []
     = (Raise (NameError "LOG_FILE"), []).
Proof.
  apply (validate_config_raises_while_loading bare_host ∅ []).
  exists "log_file". split; [cbn; auto|reflexivity].
Defined.

(** Once [LOG_FILE] is bound the function does what it is written
    for: called then, on a configuration whose ["log_file"], if any, is
    a string, it returns a configuration with the four keys and a
    dictionary as SSID map. *)
Section LogFileBound.
Context (os : host) (lf default_log fallback_name : string).

Lemma returns_log_bound (msg : string) : returns (log os (Some lf) msg).
Proof.
  intros h. exists tt. unfold result, log.
  destruct (append_line os h lf); reflexivity.
Qed.

Ltac step_log :=
  match goal with
  | |- context [log os (Some lf) ?msg ?hh] =>
      let H := fresh "Hlog" in
      let r := fresh "r" in
      let t := fresh "t" in
      destruct (returns_log_bound msg hh) as [[] H]; unfold result in H;
      destruct (log os (Some lf) msg hh) as [r t]; cbn [fst] in H; subst r
  end.

Lemma fill_defaults_bound (ds : list (string * pyval)) :
  forall (config : gmap string pyval) (h : history),
    exists c1,
      result (fill_defaults os (Some lf) ds config) h = Ret c1
      /\ (forall k x, config !! k = Some x -> c1 !! k = Some x)
      /\ (forall k, In k (List.map fst ds) -> is_Some (c1 !! k))
      /\ (forall k x, c1 !! k = Some x ->
                      config !! k = Some x \/ In (k, x) ds).
Proof.
  induction ds as [|[key v] rest IH]; intros config h; cbn [fill_defaults].
  - exists config. split; [reflexivity|]. split; [auto|].
    split; [intros k []|auto].
  - destruct (config !! key) as [x|] eqn:Hkey.
    + destruct (IH config h) as (c1 & Hr & Hkeep & Hall & Hfrom).
      exists c1. split; [exact Hr|]. split; [exact Hkeep|]. split.
      * intros k [<- | Hk]; [|apply Hall, Hk].
        exists x. apply Hkeep, Hkey.
      * intros k y Hy. destruct (Hfrom k y Hy); [left|right; right]; auto.
    + destruct (returns_log_bound
                  ("Warning: Missing config key '" +:+ key
                   +:+ "', using default: " +:+ str_val os v) h) as [[] Hlog].
      match goal with |- context [result (?m ≫= ?f) h] =>
        destruct (bind_returns m f h tt Hlog) as [-> _] end.
      match goal with |- context [result _ ?h'] =>
        destruct (IH (<[key:=v]> config) h')
          as (c1 & Hr & Hkeep & Hall & Hfrom) end.
      exists c1. split; [exact Hr|]. split; [|split].
      * intros k y Hy. apply Hkeep. rewrite lookup_insert_ne; [exact Hy|].
        intros ->. congruence.
      * intros k [<- | Hk]; [|apply Hall, Hk].
        exists v. apply Hkeep, lookup_insert_eq.
      * intros k y Hy. destruct (Hfrom k y Hy) as [Hins | Hin].
        -- destruct (decide (key = k)) as [<- | Hne].
           ++ rewrite lookup_insert_eq in Hins. injection Hins as <-.
              right. left. reflexivity.
           ++ rewrite lookup_insert_ne in Hins by exact Hne. left. exact Hins.
        -- right. right. exact Hin.
Qed.

Lemma fix_ssid_map_bound (config : gmap string pyval) (h : history) :
  is_Some (config !! "ssid_location_map") ->
  exists c2,
    result (fix_ssid_map os (Some lf) config) h = Ret c2
    /\ (exists d, c2 !! "ssid_location_map" = Some (PDict d))
    /\ (forall k, k <> "ssid_location_map" -> c2 !! k = config !! k).
Proof.
  intros [v Hv]. unfold fix_ssid_map. rewrite Hv.
  destruct v; cbn [is_dict];
    try (destruct (returns_log_bound
                     "Error: 'ssid_location_map' must be an object/dictionary" h)
           as [[] Hlog];
         match goal with |- context [result (?m ≫= ?f) h] =>
           destruct (bind_returns m f h tt Hlog) as [-> _] end;
         eexists; split; [reflexivity|]; split;
         [exists ∅; apply lookup_insert_eq
         |intros k Hk; apply lookup_insert_ne; congruence]).
  exists config. split; [reflexivity|]. split; [exists d; exact Hv|auto].
Qed.

Lemma fix_log_dir_bound (config : gmap string pyval) (h : history)
    (s : string) :
  config !! "log_file" = Some (PStr s) ->
  exists c3,
    result (fix_log_dir os (Some lf) fallback_name config) h = Ret c3
    /\ is_Some (c3 !! "log_file")
    /\ (forall k, k <> "log_file" -> c3 !! k = config !! k).
Proof.
  intros Hs. unfold fix_log_dir. rewrite Hs. unfold result. unfold_M.
  destruct (PyStr.truthy (PyPath.dirname s) && negb (path_exists os h _)).
  - unfold try_except. unfold_M. cbn [fst snd app].
    destruct (makedirs os _ (PyPath.dirname s)) as [d|].
    + cbn [is_OSError].
      repeat step_log.
      eexists. split; [reflexivity|]. split.
      * eexists. apply lookup_insert_eq.
      * intros k Hk. apply lookup_insert_ne. congruence.
    + repeat step_log.
      exists config. split; [reflexivity|]. split; [eexists; exact Hs|auto].
  - exists config. split; [reflexivity|]. split; [eexists; exact Hs|auto].
Qed.

Lemma validate_config_once_bound (config : gmap string pyval) (h : history) :
  (forall v, config !! "log_file" = Some v -> exists s, v = PStr s) ->
  exists c,
    result (validate_config_with os (Some lf) default_log fallback_name config) h
    = Ret c
    /\ fully_defaulted c.
Proof.
  intros Hlog. unfold validate_config_with.
  destruct (fill_defaults_bound (defaults default_log) config h)
    as (c1 & Hr1 & Hkeep & Hall & Hfrom).
  match goal with |- context [result (?m ≫= ?f) h] =>
    destruct (bind_returns m f h c1 Hr1) as [-> _] end.
  assert (Hkeys : forall k, In k config_keys -> is_Some (c1 !! k))
    by exact Hall.
  match goal with |- context [result _ ?h'] =>
    destruct (fix_ssid_map_bound c1 h') as (c2 & Hr2 & Hdict & Hsame2);
      [apply Hkeys; cbn; auto|];
    match goal with |- context [result (?m ≫= ?f) h'] =>
      destruct (bind_returns m f h' c2 Hr2) as [-> _] end
  end.
  assert (Hstr : exists s, c2 !! "log_file" = Some (PStr s)).
  { rewrite Hsame2 by discriminate.
    destruct (Hkeys "log_file") as [v Hv]; [cbn; auto|].
    destruct (Hfrom _ _ Hv) as [Hc | Hd].
    - destruct (Hlog v Hc) as [s ->]. exists s. exact Hv.
    - cbn in Hd. destruct Hd as [[=] | [[=] | [[=] | [[= <-] | []]]]].
      eexists. exact Hv. }
  destruct Hstr as [s Hs].
  match goal with |- context [result _ ?h'] =>
    destruct (fix_log_dir_bound c2 h' s Hs) as (c3 & Hr3 & Hlf & Hsame3) end.
  exists c3. split; [exact Hr3|].
  assert (Hother : forall k, k <> "log_file" -> k <> "ssid_location_map" ->
                             In k config_keys -> is_Some (c3 !! k)).
  { intros k H1 H2 Hk. rewrite Hsame3, Hsame2 by assumption. apply Hkeys, Hk. }
  destruct Hdict as [d Hd].
  assert (Hd3 : c3 !! "ssid_location_map" = Some (PDict d))
    by (rewrite Hsame3 by discriminate; exact Hd).
  unfold fully_defaulted. split; [eexists; exact Hd3|].
  split; [apply Hother; [discriminate|discriminate|cbn; auto]|].
  split; [apply Hother; [discriminate|discriminate|cbn; auto]|].
  split; [exact Hlf|]. exists d. exact Hd3.
Qed.

End LogFileBound.

(** A ["log_file"] that is not a string is not replaced: it reaches
    [os.path.dirname], which raises. *)
Example validate_config_log_file_not_a_string :
  result
    (Package.validate_config bare_host (Some "/tmp/nls.log")
       (<["log_file" := PInt 5]>
          (<["ethernet_location" := PStr "Wired"]>
             (<["default_wifi_location" := PStr "Automatic"]>
                (<["ssid_location_map" := PDict ∅]> ∅)))))
    []
  = Raise (TypeError "expected str, bytes or os.PathLike object").
Proof. vm_compute. reflexivity. Qed.

(** While the module loads, the function returns only a configuration
    it had nothing to do on. *)
Lemma fill_defaults_nothing_missing (os : host) (log_file : option string)
    (ds : list (string * pyval)) (config : gmap string pyval) (h : history) :
  (forall key, In key (List.map fst ds) -> is_Some (config !! key)) ->
  fill_defaults os log_file ds config h = (Ret config, []).
Proof.
  induction ds as [|[key v] rest IH]; intros Hall; cbn [fill_defaults].
  - reflexivity.
  - destruct (Hall key (or_introl eq_refl)) as [x ->].
    apply IH. intros k Hk. apply Hall. right. exact Hk.
Qed.

Lemma validate_config_returns_while_loading (os : host)
    (default_log fallback_name : string) (config c : gmap string pyval)
    (h : history) :
  result (validate_config_with os None default_log fallback_name config) h
  = Ret c ->
  c = config /\ fully_defaulted c.
Proof.
  intros Hr.
  assert (Hall : forall key, In key config_keys -> is_Some (config !! key)).
  { intros key Hkey. destruct (config !! key) as [x|] eqn:Hx; [eauto|].
    unfold result in Hr.
    rewrite (validate_config_unbound os default_log fallback_name config h)
      in Hr by eauto.
    discriminate. }
  revert Hr. unfold result, validate_config_with. unfold_M.
  rewrite (fill_defaults_nothing_missing os None (defaults default_log))
    by exact Hall.
  unfold fix_ssid_map, fix_log_dir.
  destruct (Hall "ssid_location_map") as [v Hv]; [cbn; auto|].
  destruct (Hall "log_file") as [l Hl]; [cbn; auto|].
  rewrite Hv. destruct (is_dict v) eqn:Hdict; [|discriminate].
  unfold_M. cbn [fst snd app]. rewrite Hl.
  destruct l; try discriminate.
  destruct (PyStr.truthy (PyPath.dirname s) && negb (path_exists os _ _)).
  - unfold try_except. unfold_M. cbn [fst snd app].
    destruct (makedirs os _ _); discriminate.
  - cbn. intros [= <-]. split; [reflexivity|].
    destruct v; try discriminate.
    unfold fully_defaulted. repeat split; try (apply Hall; cbn; auto).
    eexists. exact Hv.
Qed.

(** ** The end-to-end scenarios of the specification *)

(** A: on the mapped network "HomeNet" with "Automatic" active, the
    switch is issued for "Home". *)
Example scenario_A :
  switches (effects (Package.network_changed
                       (scenario_host "HomeNet" "Automatic" false)
                       sample_globals) [])
  = [Exec (switch_command "Home")].
Proof. vm_compute. reflexivity. Qed.

(** B: with the wired link active and "Home" active, the switch is
    issued for "Wired". *)
Example scenario_B :
  switches (effects (Package.network_changed
                       (scenario_host "HomeNet" "Home" true)
                       sample_globals) [])
  = [Exec (switch_command "Wired")].
Proof. vm_compute. reflexivity. Qed.

(** C: on the unmapped network "OfficeNet" with "Automatic" active, no
    switch is issued. *)
Example scenario_C :
  switches (effects (Script.network_changed
                       (scenario_host "OfficeNet" "Automatic" false)
                       sample_globals) [])
  = [].
Proof. vm_compute. reflexivity. Qed.

(** * Further properties of the code *)

(** ** Reading the active profile out of a well-formed listing *)

Lemma append_cons (c : ascii) (a b : string) :
  String c a +:+ b = String c (a +:+ b).
Proof. reflexivity. Qed.

Lemma append_nil_l (a : string) : "" +:+ a = a.
Proof. reflexivity. Qed.

Lemma length_append (a b : string) :
  String.length (a +:+ b) = (String.length a + String.length b)%nat.
Proof.
  induction a as [|c a IH]; [reflexivity|].
  rewrite append_cons. cbn [String.length]. rewrite IH. reflexivity.
Qed.

Lemma find_from_append (c : ascii) (a b : string) (i : Z) :
  PyStr.mem_char c a = false ->
  PyStr.find_from c (a +:+ b) i
  = PyStr.find_from c b (i + Z.of_nat (String.length a)).
Proof.
  revert i. induction a as [|d a IH]; intros i Hno.
  - cbn. rewrite Z.add_0_r. reflexivity.
  - cbn [PyStr.mem_char] in Hno. apply orb_false_elim in Hno as [Hd Ha].
    rewrite append_cons. cbn [PyStr.find_from String.length]. rewrite Hd.
    rewrite IH by exact Ha. f_equal. lia.
Qed.

Lemma substring_append_skip (a b : string) (n : nat) :
  String.substring (String.length a) n (a +:+ b) = String.substring 0 n b.
Proof.
  induction a as [|c a IH]; [reflexivity|].
  rewrite append_cons. cbn [String.length String.substring]. exact IH.
Qed.

Lemma substring_append_take (a b : string) :
  String.substring 0 (String.length a) (a +:+ b) = a.
Proof.
  induction a as [|c a IH].
  - destruct b; reflexivity.
  - rewrite append_cons. cbn [String.length String.substring]. rewrite IH.
    reflexivity.
Qed.

(** [s[s.find("(") + 1 : s.find(")")]] on a string of the expected
    shape is the text between the parentheses. *)
Lemma slice_between_parentheses (pre name post : string) :
  PyStr.mem_char "("%char pre = false ->
  PyStr.mem_char ")"%char pre = false ->
  PyStr.mem_char ")"%char name = false ->
  let location := pre +:+ "(" +:+ name +:+ ")" +:+ post in
  PyStr.slice location (PyStr.find "("%char location + 1)
    (PyStr.find ")"%char location) = name.
Proof.
  intros Hopen Hclose Hname location. subst location. unfold PyStr.find.
  rewrite (find_from_append "("%char pre) by exact Hopen.
  rewrite (find_from_append ")"%char pre) by exact Hclose.
  rewrite !append_cons. cbn [PyStr.find_from Ascii.eqb Bool.eqb].
  rewrite !append_nil_l.
  rewrite (find_from_append ")"%char name) by exact Hname.
  cbn [PyStr.find_from]. rewrite Ascii.eqb_refl.
  unfold PyStr.slice, PyStr.clamp_index.
  rewrite length_append. cbn [String.length]. rewrite length_append.
  cbn [String.length].
  set (p := String.length pre). set (n := String.length name).
  set (q := String.length post).
  destruct (Z.ltb_spec (0 + Z.of_nat p + 1) 0); [lia|].
  destruct (Z.ltb_spec (0 + Z.of_nat p + 1 + Z.of_nat n) 0); [lia|].
  rewrite !Z.min_l by lia.
  destruct (Z.ltb_spec (0 + Z.of_nat p + 1) (0 + Z.of_nat p + 1 + Z.of_nat n))
    as [Hlt | Hge].
  - replace (Z.to_nat (0 + Z.of_nat p + 1)) with (String.length (pre +:+ "("))
      by (rewrite length_append; cbn [String.length]; lia).
    replace (Z.to_nat (0 + Z.of_nat p + 1 + Z.of_nat n - (0 + Z.of_nat p + 1)))
      with n by lia.
    replace (pre +:+ String "(" (name +:+ String ")" post))
      with ((pre +:+ "(") +:+ (name +:+ String ")" post)).
    + rewrite substring_append_skip. apply substring_append_take.
    + clear. induction pre as [|c pre IH]; [reflexivity|].
      rewrite !append_cons, IH. reflexivity.
  - assert (n = 0%nat) by lia. destruct name; [reflexivity|discriminate].
Qed.

Lemma active_location_first_marked (before : list string) (line : string)
    (rest : list string) :
  (forall l, In l before -> is_marked l = false) ->
  is_marked line = true ->
  active_location (before ++ line :: rest)
  = let location := PyStr.strip (PyStr.lstrip "*" (PyStr.strip line)) in
    Some (PyStr.slice location (PyStr.find "("%char location + 1)
            (PyStr.find ")"%char location)).
Proof.
  intros Hbefore Hline. induction before as [|l before IH];
    cbn [app active_location].
  - unfold is_marked in Hline. rewrite Hline. reflexivity.
  - pose proof (Hbefore l (or_introl eq_refl)) as Hl. unfold is_marked in Hl.
    rewrite Hl. apply IH. intros l' Hl'. apply Hbefore. right. exact Hl'.
Qed.

(** X1. On a listing whose first marked line reads, once the star and
    the surrounding blanks are stripped, [pre(name)post] with no
    parenthesis in [pre] and no closing one in [name], the reader
    returns [name]; later lines, marked or not, do not matter. *)
Theorem get_current_location_reads_name (os : host) (h : history)
    (out : string) (before : list string) (line : string)
    (rest : list string) (pre name post : string) :
  run_process os h scselect_command = Exited 0 out ->
  PyStr.splitlines out = before ++ line :: rest ->
  (forall l, In l before -> is_marked l = false) ->
  is_marked line = true ->
  PyStr.strip (PyStr.lstrip "*" (PyStr.strip line))
  = pre +:+ "(" +:+ name +:+ ")" +:+ post ->
  PyStr.mem_char "("%char pre = false ->
  PyStr.mem_char ")"%char pre = false ->
  PyStr.mem_char ")"%char name = false ->
  result (get_current_location os) h = Ret (Some name).
Proof.
  intros Hrun Hlines Hbefore Hline Hshape Hopen Hclose Hname.
  unfold result. rewrite get_current_location_eq, Hrun. cbn [Z.eqb fst].
  rewrite Hlines, (active_location_first_marked before line rest Hbefore Hline).
  cbv zeta. rewrite Hshape.
  rewrite (slice_between_parentheses pre name post Hopen Hclose Hname).
  reflexivity.
Qed.

(** The listing of [scselect] with "Work (VPN" active: the name may
    hold an opening parenthesis, a second marked line is ignored. *)
Lemma get_current_location_reads_name_witness :
  result
    (get_current_location
       (table_host
          [(scselect_command,
            Exited 0 (sample_scselect "Home" +:+ " * 7	(Later)"))]))
    [] = Ret (Some "Home").
Proof.
  apply (get_current_location_reads_name _ []
           (sample_scselect "Home" +:+ " * 7	(Later)")
           ["Defined sets include: (* == current set)"]
           " * 11111111-2222-3333-4444-555555555555	(Home)"
           ["   66666666-7777-8888-9999-000000000000	(Other)"; " * 7	(Later)"]
           "11111111-2222-3333-4444-555555555555	" "Home" "").
  - reflexivity.
  - vm_compute. reflexivity.
  - intros l [<- | []]. vm_compute. reflexivity.
  - vm_compute. reflexivity.
  - vm_compute. reflexivity.
  - vm_compute. reflexivity.
  - vm_compute. reflexivity.
  - vm_compute. reflexivity.
Defined.

(** ** Effects and exceptions of composed computations *)

Lemma bind_effects_eq {A B} (m : M A) (f : A -> M B) (h : history) :
  effects (m ≫= f) h
  = effects m h
    ++ match result m h with
       | Ret a => effects (f a) (h ++ effects m h)
       | Raise _ => []
       end.
Proof.
  destruct (result m h) as [a|e] eqn:Hm.
  - apply (bind_returns m f h a Hm).
  - destruct (bind_raises m f h e Hm) as [_ ->]. rewrite app_nil_r.
    reflexivity.
Qed.

Lemma try_except_eq {A} (m : M A) (catches : exn -> bool)
    (handler : exn -> M A) (h : history) :
  result (try_except m catches handler) h
  = match result m h with
    | Ret a => Ret a
    | Raise e => if catches e then result (handler e) (h ++ effects m h)
                 else Raise e
    end
  /\ effects (try_except m catches handler) h
     = effects m h
       ++ match result m h with
          | Ret _ => []
          | Raise e => if catches e then effects (handler e) (h ++ effects m h)
                       else []
          end.
Proof.
  unfold result, effects, try_except. destruct (m h) as [[a|e] t]; cbn.
  - rewrite app_nil_r. auto.
  - destruct (catches e); cbn; [|rewrite app_nil_r; auto].
    destruct (handler e (h ++ t)); auto.
Qed.

Lemma all_effects_ret {A} (P : event -> Prop) (a : A) :
  all_effects P (mret a : M A).
Proof. intros h. constructor. Qed.

Lemma all_effects_bind {A B} (P : event -> Prop) (m : M A) (f : A -> M B) :
  all_effects P m -> (forall a, all_effects P (f a)) ->
  all_effects P (m ≫= f).
Proof.
  intros Hm Hf h. rewrite bind_effects_eq. apply Forall_app. split; [apply Hm|].
  destruct (result m h); [apply Hf|constructor].
Qed.

Lemma all_effects_try {A} (P : event -> Prop) (m : M A)
    (catches : exn -> bool) (handler : exn -> M A) :
  all_effects P m -> (forall e, all_effects P (handler e)) ->
  all_effects P (try_except m catches handler).
Proof.
  intros Hm Hh h. destruct (try_except_eq m catches handler h) as [_ ->].
  apply Forall_app. split; [apply Hm|].
  destruct (result m h) as [a|e]; [constructor|].
  destruct (catches e); [apply Hh|constructor].
Qed.

Lemma all_effects_ask {A} (P : event -> Prop) (q : history -> A) :
  all_effects P (ask q).
Proof. intros h. constructor. Qed.

Lemma raises_only_ret {A} (P : exn -> Prop) (a : A) :
  raises_only P (mret a : M A).
Proof. intros h e. discriminate. Qed.

Lemma raises_only_bind {A B} (P : exn -> Prop) (m : M A) (f : A -> M B) :
  raises_only P m -> (forall a, raises_only P (f a)) ->
  raises_only P (m ≫= f).
Proof.
  intros Hm Hf h e. destruct (result m h) as [a|e'] eqn:Hr.
  - destruct (bind_returns m f h a Hr) as [-> _]. apply Hf.
  - destruct (bind_raises m f h e' Hr) as [-> _]. intros [= <-].
    apply (Hm h). exact Hr.
Qed.

Lemma raises_only_returns {A} (P : exn -> Prop) (m : M A) :
  returns m -> raises_only P m.
Proof. intros Hm h e He. destruct (Hm h) as [a Ha]. congruence. Qed.

Lemma no_switch_count (t : list event) :
  Forall not_a_switch t -> switch_count t = 0%nat.
Proof.
  unfold switch_count. induction 1 as [|ev t Hev _ IH]; [reflexivity|].
  cbn [List.filter]. unfold not_a_switch in Hev. rewrite Hev. exact IH.
Qed.

(** ** The probes only look *)

Lemma run_command_effects (os : host) (cmd : command) (h : history) :
  effects (run_command os cmd) h = [Exec cmd].
Proof.
  unfold effects. rewrite run_command_eq.
  destruct (run_process os h cmd); reflexivity.
Qed.

Lemma run_command_raises_only (os : host) (cmd : command) :
  raises_only (fun e => is_OSError e = true) (run_command os cmd).
Proof.
  intros h e. unfold result. rewrite run_command_eq.
  destruct (run_process os h cmd); [discriminate|]. intros [= <-]. reflexivity.
Qed.

Lemma say_all_effects (os : host) (g : globals) (msg : string) :
  all_effects not_a_switch (say os g msg).
Proof.
  intros h. unfold effects, say, log.
  destruct (append_line os h (LOG_FILE g)); repeat constructor.
Qed.

Lemma query_all_effects (os : host) (cmd : command) :
  is_switch_exec (Exec cmd) = false ->
  all_effects not_a_switch (run_command os cmd).
Proof.
  intros Hcmd h. rewrite run_command_effects. repeat constructor. exact Hcmd.
Qed.

Lemma get_wifi_interface_looks (os : host) (g : globals) :
  all_effects not_a_switch (get_wifi_interface os g)
  /\ raises_only (fun e => is_OSError e = true) (get_wifi_interface os g).
Proof.
  unfold get_wifi_interface. split.
  - apply all_effects_bind; [apply query_all_effects; reflexivity|].
    intros out. destruct (negb (PyStr.truthy out)).
    + apply all_effects_bind; [apply say_all_effects|].
      intros _. apply all_effects_ret.
    + cbv zeta. destruct (PyStr.truthy_opt _); [apply all_effects_ret|].
      apply all_effects_bind; [apply say_all_effects|].
      intros _. apply all_effects_ret.
  - apply raises_only_bind; [apply run_command_raises_only|].
    intros out. apply raises_only_returns.
    destruct (negb (PyStr.truthy out)).
    + apply returns_bind; [apply returns_say|]. intros _. apply returns_ret.
    + cbv zeta. destruct (PyStr.truthy_opt _); [apply returns_ret|].
      apply returns_bind; [apply returns_say|]. intros _. apply returns_ret.
Qed.

Lemma any_port_active_looks (os : host) (g : globals) (ports : list string) :
  all_effects not_a_switch (any_port_active os g ports)
  /\ raises_only (fun e => is_OSError e = true) (any_port_active os g ports).
Proof.
  induction ports as [|port rest [IHe IHr]]; cbn [any_port_active].
  - split; [apply all_effects_ret|apply raises_only_ret].
  - split.
    + apply all_effects_bind; [apply query_all_effects; reflexivity|].
      intros out. destruct (_ && _); [|exact IHe].
      apply all_effects_bind; [apply say_all_effects|].
      intros _. apply all_effects_ret.
    + apply raises_only_bind; [apply run_command_raises_only|].
      intros out. destruct (_ && _); [|exact IHr].
      apply raises_only_returns.
      apply returns_bind; [apply returns_say|]. intros _. apply returns_ret.
Qed.

Lemma probes_look (os : host) (g : globals) :
  (all_effects not_a_switch (get_current_ssid os g)
   /\ raises_only (fun e => is_OSError e = true) (get_current_ssid os g))
  /\ (all_effects not_a_switch (wifi_active os g)
      /\ raises_only (fun e => is_OSError e = true) (wifi_active os g))
  /\ (all_effects not_a_switch (ethernet_active os g)
      /\ raises_only (fun e => is_OSError e = true) (ethernet_active os g)).
Proof.
  destruct (get_wifi_interface_looks os g) as [Hwe Hwr].
  split; [|split].
  - unfold get_current_ssid. split.
    + apply all_effects_bind; [exact Hwe|].
      intros [iface|]; [|apply all_effects_ret].
      destruct (negb (PyStr.truthy iface)); [apply all_effects_ret|].
      apply all_effects_bind; [apply query_all_effects; reflexivity|].
      intros out. destruct (negb (PyStr.truthy out)); apply all_effects_ret.
    + apply raises_only_bind; [exact Hwr|].
      intros [iface|]; [|apply raises_only_ret].
      destruct (negb (PyStr.truthy iface)); [apply raises_only_ret|].
      apply raises_only_bind; [apply run_command_raises_only|].
      intros out. destruct (negb (PyStr.truthy out)); apply raises_only_ret.
  - unfold wifi_active. split.
    + apply all_effects_bind; [exact Hwe|].
      intros [iface|]; [|apply all_effects_ret].
      destruct (negb (PyStr.truthy iface)); [apply all_effects_ret|].
      apply all_effects_bind; [apply query_all_effects; reflexivity|].
      intros out. apply all_effects_ret.
    + apply raises_only_bind; [exact Hwr|].
      intros [iface|]; [|apply raises_only_ret].
      destruct (negb (PyStr.truthy iface)); [apply raises_only_ret|].
      apply raises_only_bind; [apply run_command_raises_only|].
      intros out. apply raises_only_ret.
  - unfold ethernet_active. split.
    + apply all_effects_bind; [exact Hwe|]. intros w.
      apply all_effects_bind; [apply query_all_effects; reflexivity|].
      intros out. destruct (negb (PyStr.truthy out)); [apply all_effects_ret|].
      apply any_port_active_looks.
    + apply raises_only_bind; [exact Hwr|]. intros w.
      apply raises_only_bind; [apply run_command_raises_only|].
      intros out. destruct (negb (PyStr.truthy out)); [apply raises_only_ret|].
      apply any_port_active_looks.
Qed.


(** ** Finding the interfaces in the hardware-port listing *)




Example empty_device_hides_later_ports :
  result
    (get_wifi_interface
       (table_host
          [(list_ports_command,
            Exited 0 ("Hardware Port: Wi-Fi" +:+ NL +:+ "Device:" +:+ NL
                      +:+ "Hardware Port: Wi-Fi" +:+ NL +:+ "Device: en1"))])
       sample_globals) []
  = Ret None.
Proof. vm_compute. reflexivity. Qed.



(** ** Notifications *)

Lemma first_executable_eq (os : host) (paths : list string) (h : history) :
  Package.first_executable os paths h
  = (Ret (List.find (is_executable_file os h) paths), []).
Proof.
  induction paths as [|path rest IH]; cbn [Package.first_executable List.find].
  - reflexivity.
  - unfold_M. rewrite app_nil_r.
    destruct (is_executable_file os h path); [reflexivity|].
    rewrite IH. reflexivity.
Qed.

(** X5. [get_notifytool_path] returns the first of its three candidates
    that is an executable file (the user's application bundle before
    /usr/local/bin before the script directory), [None] when none is,
    and touches nothing. *)
Theorem get_notifytool_path_first (os : host) (h : history) :
  Package.get_notifytool_path os h
  = (Ret (List.find (is_executable_file os h)
            [home_dir os
             +:+ "/Library/Application Support/NotifyTool.app/Contents/MacOS/notifytool";
             "/usr/local/bin/notifytool";
             PyPath.join (script_dir os) "notifytool"]),
     []).
Proof. apply first_executable_eq. Qed.

Lemma notifytool_not_switch (p : string) (rest : list string) :
  is_switch_exec (Exec (Argv (p :: "--title" :: rest))) = false.
Proof.
  unfold is_switch_exec.
  do 23 (destruct p as [|[[] [] [] [] [] [] [] []] p]; try reflexivity).
Qed.

Lemma run_unchecked_all_effects (os : host) (cmd : command) :
  is_switch_exec (Exec cmd) = false ->
  all_effects not_a_switch (run_unchecked os cmd).
Proof.
  intros Hcmd h. unfold effects, run_unchecked.
  destruct (run_process os h cmd); repeat constructor; exact Hcmd.
Qed.

Lemma send_notification_all_effects (os : host) (g : globals)
    (title message : string) (subtitle : option string) :
  all_effects not_a_switch
    (Package.send_notification os g title message subtitle).
Proof.
  assert (Hsay : forall msg b, all_effects not_a_switch
                                 (say os g msg ≫= fun _ => mret (b : bool))).
  { intros msg b. apply all_effects_bind; [apply say_all_effects|].
    intros _. apply all_effects_ret. }
  unfold Package.send_notification.
  apply all_effects_bind.
  { unfold Package.send_notification_notifytool.
    apply all_effects_bind.
    { intros h. unfold effects, Package.get_notifytool_path.
      rewrite first_executable_eq. constructor. }
    intros path. destruct (negb (PyStr.truthy_opt path)); [apply all_effects_ret|].
    apply all_effects_try; [|intros e; apply Hsay].
    cbv zeta. apply all_effects_bind; [apply all_effects_ask|]. intros euid.
    assert (Hregular : forall args,
      all_effects not_a_switch
        (run_unchecked os
           (Argv ([PyStr.format_opt path; "--title"; title; "--body"; message]
                  ++ args))
         ≫= fun rc => mret (rc =? 0))).
    { intros args. apply all_effects_bind; [|intros rc; apply all_effects_ret].
      apply run_unchecked_all_effects, notifytool_not_switch. }
    destruct (euid =? 0); [|apply Hregular].
    apply all_effects_bind; [apply query_all_effects; reflexivity|].
    intros user. destruct (PyStr.truthy user); [|apply Hregular].
    apply all_effects_bind; [apply query_all_effects; reflexivity|].
    intros uid. destruct (PyStr.truthy uid); [|apply Hregular].
    apply all_effects_bind; [|intros rc; apply all_effects_ret].
    apply run_unchecked_all_effects. reflexivity. }
  intros [|]; [apply all_effects_ret|].
  apply all_effects_bind.
  { unfold Package.send_notification_osascript.
    apply all_effects_try; [|intros e; apply Hsay].
    cbv zeta. apply all_effects_bind; [apply all_effects_ask|]. intros euid.
    assert (Hregular :
      all_effects not_a_switch
        (run_unchecked os
           (Argv ["/usr/bin/osascript"; "-e";
                  Package.notification_script title message])
         ≫= fun _ => mret true)).
    { apply all_effects_bind; [|intros rc; apply all_effects_ret].
      apply run_unchecked_all_effects. reflexivity. }
    destruct (euid =? 0); [|apply Hregular].
    apply all_effects_bind; [apply query_all_effects; reflexivity|].
    intros user. destruct (PyStr.truthy user); [|apply Hregular].
    apply all_effects_bind; [apply query_all_effects; reflexivity|].
    intros uid. apply all_effects_bind; [|intros rc; apply all_effects_ret].
    destruct (PyStr.truthy uid); [|apply all_effects_ret].
    apply all_effects_bind; [|intros rc; apply all_effects_ret].
    apply run_unchecked_all_effects. reflexivity. }
  intros [|]; cbn [negb]; [apply all_effects_ret|apply say_all_effects].
Qed.

Lemma no_switches (t : list event) :
  Forall not_a_switch t -> switches t = [].
Proof.
  intros Ht. apply length_zero_iff_nil. apply (no_switch_count t Ht).
Qed.

Lemma switches_app (a b : list event) :
  switches (a ++ b) = switches a ++ switches b.
Proof. apply List.filter_app. Qed.

Lemma send_notification_no_switches (os : host) (g : globals)
    (title message : string) (subtitle : option string) (h : history) :
  switches
    (effects (Package.send_notification os g title message subtitle) h) = [].
Proof. apply no_switches, send_notification_all_effects. Qed.

Lemma switch_location_switches (os : host) (g : globals)
    (target : string) (h : history) (c : option string) :
  result (get_current_location os) h = Ret c ->
  let expected :=
    if already_on c target then [] else [Exec (switch_command target)] in
  switches (effects (Package.switch_location os g target) h) = expected
  /\ switches (effects (Script.switch_location os g target) h) = expected.
Proof.
  intros Hc expected.
  assert (Hsay : forall msg h', switches (effects (say os g msg) h') = []).
  { intros. apply no_switches, say_all_effects. }
  destruct (before_switch_split os g target h) as (pre & Hpre & Hcount & _).
  assert (Hpre0 : switches pre = [])
    by (apply length_zero_iff_nil; exact Hcount).
  subst expected. destruct (already_on c target) eqn:Hon.
  - destruct c as [s|]; [|discriminate]. cbn in Hon.
    apply String.eqb_eq in Hon. subst s.
    destruct (switch_location_idle os g target h Hc) as (Heff & _ & Hsame).
    cbv zeta in Heff. rewrite Hpre, <- app_assoc in Heff.
    apply app_inv_head in Heff.
    assert (Hscript : effects (Script.switch_location os g target) h
                      = effects (Package.switch_location os g target) h)
      by (unfold effects; rewrite Hsame; reflexivity).
    rewrite Hscript, Heff, switches_app, Hpre0, Hsay. auto.
  - destruct (package_switch_attempt os g target h c Hc Hon) as [_ Hp].
    destruct (script_switch_attempt os g target h c Hc Hon) as [_ Hs].
    cbv zeta in Hp, Hs. rewrite Hpre in Hp, Hs.
    split.
    + destruct (failure_of _ _); rewrite <- !app_assoc in Hp;
        apply app_inv_head in Hp; rewrite Hp;
        rewrite !switches_app, Hpre0, ?Hsay,
          ?send_notification_no_switches; reflexivity.
    + destruct (failure_of _ _); rewrite <- !app_assoc in Hs;
        apply app_inv_head in Hs; rewrite Hs;
        rewrite !switches_app, Hpre0, ?Hsay; reflexivity.
Qed.

(** X6. A call of [switch_location] issues the switch command exactly
    once, for its target and for no other profile, when the active
    profile differs from the target, and never otherwise; in the package
    script too, where a notification follows: sending a notification
    never issues a switch. *)
Theorem switch_issued_exactly_once (os : host) (g : globals)
    (target : string) (h : history) (c : option string) :
  result (get_current_location os) h = Ret c ->
  let expected :=
    if already_on c target then [] else [Exec (switch_command target)] in
  switches (effects (Package.switch_location os g target) h) = expected
  /\ switches (effects (Script.switch_location os g target) h) = expected
  /\ (forall title message subtitle h',
        switches
          (effects (Package.send_notification os g title message subtitle) h')
        = []).
Proof.
  intros Hc expected.
  destruct (switch_location_switches os g target h c Hc) as [Hp Hs].
  split; [exact Hp|]. split; [exact Hs|].
  intros. apply send_notification_no_switches.
Qed.

(** Witness of X6: "Automatic" is active, the target is "Home". *)
Lemma switch_issued_exactly_once_witness :
  switches (effects (Package.switch_location switching_host sample_globals "Home") [])
  = [Exec (switch_command "Home")]
  /\ switches (effects (Script.switch_location (host_on "Home") sample_globals "Home") [])
     = [].
Proof.
  split.
  - apply (switch_issued_exactly_once switching_host sample_globals "Home" []
             (Some "Automatic")). vm_compute. reflexivity.
  - apply (switch_issued_exactly_once (host_on "Home") sample_globals "Home" []
             (Some "Home")). vm_compute. reflexivity.
Defined.


(** ** One trigger of the daemon *)

Lemma switches_bind_quiet {A B} (m : M A) (f : A -> M B) (h : history) :
  all_effects not_a_switch m ->
  switches (effects (m ≫= f) h)
  = match result m h with
    | Ret a => switches (effects (f a) (h ++ effects m h))
    | Raise _ => []
    end.
Proof.
  intros Hm. rewrite bind_effects_eq, switches_app, (no_switches _ (Hm h)).
  destruct (result m h); reflexivity.
Qed.


Lemma script_result_of_package (os : host) (g : globals) (h : history) :
  result (Script.network_changed os g) h
  = result (Package.network_changed os g) h.
Proof.
  assert (H : same_up_to_notification os g
                (Script.network_changed os g h)
                (Package.network_changed os g h)).
  { unfold Script.network_changed, Package.network_changed.
    apply bind_same_up_to_notification. intros ssid h1.
    apply bind_same_up_to_notification. intros wifi h2.
    apply bind_same_up_to_notification. intros wired h3.
    change (Script.choose_target g ssid wifi wired)
      with (Package.choose_target g ssid wifi wired).
    destruct (Package.choose_target g ssid wifi wired) as [target line].
    apply bind_same_up_to_notification. intros _ h4.
    apply switch_location_same_up_to_notification. }
  destruct H as [H _]. exact H.
Qed.


(** What one trigger does, probe by probe: either a probe raises, and
    nothing was switched; or the three probes return, and the trigger
    switches what [switch_location] switches for the chosen target. *)
Lemma network_changed_cases (os : host) (g : globals) (h : history) :
  (exists e,
     result (Package.network_changed os g) h = Raise e
     /\ is_OSError e = true
     /\ switches (effects (Package.network_changed os g) h) = []
     /\ switches (effects (Script.network_changed os g) h) = [])
  \/ (exists ssid wifi wired h',
        result (Package.network_changed os g) h = Ret tt
        /\ switches (effects (Package.network_changed os g) h)
           = switches
               (effects
                  (Package.switch_location os g
                     (fst (Package.choose_target g ssid wifi wired))) h')
        /\ switches (effects (Script.network_changed os g) h)
           = switches
               (effects
                  (Script.switch_location os g
                     (fst (Package.choose_target g ssid wifi wired))) h')).
Proof.
  destruct (probes_look os g) as ([Hse Hsr] & [Hae Har] & [Hee Her]).
  unfold Package.network_changed, Script.network_changed.
  rewrite !(switches_bind_quiet (get_current_ssid os g) _ h Hse).
  destruct (result (get_current_ssid os g) h) as [ssid|e] eqn:Hssid.
  2:{ left. exists e.
      destruct (bind_raises (get_current_ssid os g)
                  (fun ssid => wifi ← wifi_active os g;
                               wired ← ethernet_active os g;
                               let '(target, line) :=
                                 Package.choose_target g ssid wifi wired in
                               say os g line;;
                               Package.switch_location os g target)
                  h e Hssid) as [Hr _].
      split; [exact Hr|]. split; [exact (Hsr h e Hssid)|]. auto. }
  set (h1 := h ++ effects (get_current_ssid os g) h).
  rewrite !(switches_bind_quiet (wifi_active os g) _ h1 Hae).
  destruct (bind_returns (get_current_ssid os g)
              (fun ssid => wifi ← wifi_active os g;
                           wired ← ethernet_active os g;
                           let '(target, line) :=
                             Package.choose_target g ssid wifi wired in
                           say os g line;;
                           Package.switch_location os g target)
              h ssid Hssid) as [-> _].
  fold h1.
  destruct (result (wifi_active os g) h1) as [wifi|e] eqn:Hwifi.
  2:{ left. exists e.
      destruct (bind_raises (wifi_active os g)
                  (fun wifi => wired ← ethernet_active os g;
                               let '(target, line) :=
                                 Package.choose_target g ssid wifi wired in
                               say os g line;;
                               Package.switch_location os g target)
                  h1 e Hwifi) as [Hr _].
      split; [exact Hr|]. split; [exact (Har h1 e Hwifi)|]. auto. }
  set (h2 := h1 ++ effects (wifi_active os g) h1).
  rewrite !(switches_bind_quiet (ethernet_active os g) _ h2 Hee).
  destruct (bind_returns (wifi_active os g)
              (fun wifi => wired ← ethernet_active os g;
                           let '(target, line) :=
                             Package.choose_target g ssid wifi wired in
                           say os g line;;
                           Package.switch_location os g target)
              h1 wifi Hwifi) as [-> _].
  fold h2.
  destruct (result (ethernet_active os g) h2) as [wired|e] eqn:Hwired.
  2:{ left. exists e.
      destruct (bind_raises (ethernet_active os g)
                  (fun wired => let '(target, line) :=
                                  Package.choose_target g ssid wifi wired in
                                say os g line;;
                                Package.switch_location os g target)
                  h2 e Hwired) as [Hr _].
      split; [exact Hr|]. split; [exact (Her h2 e Hwired)|]. auto. }
  set (h3 := h2 ++ effects (ethernet_active os g) h2).
  destruct (bind_returns (ethernet_active os g)
              (fun wired => let '(target, line) :=
                              Package.choose_target g ssid wifi wired in
                            say os g line;;
                            Package.switch_location os g target)
              h2 wired Hwired) as [-> _].
  fold h3.
  change (Script.choose_target g ssid wifi wired)
    with (Package.choose_target g ssid wifi wired).
  right. exists ssid, wifi, wired.
  destruct (Package.choose_target g ssid wifi wired) as [target line].
  cbn [fst].
  exists (h3 ++ effects (say os g line) h3).
  destruct (returns_say os g line h3) as [[] Hsay].
  destruct (bind_returns (say os g line)
              (fun _ => Package.switch_location os g target) h3 tt Hsay)
    as [-> _].
  rewrite !(switches_bind_quiet (say os g line) _ h3 (say_all_effects os g line)).
  rewrite Hsay.
  split; [apply returns_package_switch_location|]. split; reflexivity.
Qed.


(** X8. One trigger never fails because a command failed: on a host
    where every program can be started, [network_changed] returns in
    both scripts whatever the commands answer.  It raises only the
    [OSError] of a probe whose program could not be started, in both
    scripts alike, and it has then switched nothing. *)
Theorem network_changed_survives_failures (os : host) (g : globals)
    (h : history) :
  result (Script.network_changed os g) h
  = result (Package.network_changed os g) h
  /\ (always_starts os -> result (Package.network_changed os g) h = Ret tt)
  /\ (forall e,
        result (Package.network_changed os g) h = Raise e ->
        (exists detail, e = OSError detail)
        /\ switches (effects (Package.network_changed os g) h) = []
        /\ switches (effects (Script.network_changed os g) h) = []).
Proof.
  split; [apply script_result_of_package|]. split.
  - intros Hos.
    destruct (returns_probes os g Hos) as (Hs & Hw & He).
    assert (Hall : returns (Package.network_changed os g)).
    { unfold Package.network_changed.
      apply returns_bind; [exact Hs|]. intros ssid.
      apply returns_bind; [exact Hw|]. intros wifi.
      apply returns_bind; [exact He|]. intros wired.
      destruct (Package.choose_target g ssid wifi wired) as [target line].
      apply returns_bind; [apply returns_say|]. intros _ h'.
      exists tt. apply returns_package_switch_location. }
    destruct (Hall h) as [[] Hr]. exact Hr.
  - intros e He.
    destruct (network_changed_cases os g h)
      as [(e' & Hr & Hos & Hp & Hs) | (ssid & wifi & wired & h' & Hr & _)];
      [|congruence].
    rewrite Hr in He. injection He as <-.
    split; [|split; assumption].
    destruct e'; try discriminate. eexists. reflexivity.
Qed.

(** Witness of X8: a host where every command exits with status 127,
    and one where [networksetup] cannot be started. *)
Lemma network_changed_survives_failures_witness :
  result (Package.network_changed bare_host sample_globals) [] = Ret tt
  /\ switches
       (effects (Script.network_changed
                   (table_host [(list_ports_command, NotStarted "networksetup")])
                   sample_globals) []) = [].
Proof.
  split.
  - apply (network_changed_survives_failures bare_host sample_globals []).
    intros h cmd. exists 127, "". reflexivity.
  - apply (proj2 (proj2 (network_changed_survives_failures
                           (table_host
                              [(list_ports_command, NotStarted "networksetup")])
                           sample_globals []))
             (OSError "networksetup")).
    vm_compute. reflexivity.
Defined.

(** ** The routes of a notification *)

Lemma truthy_append_r (a : string) (c : ascii) (r : string) :
  PyStr.truthy (a +:+ String c r) = true.
Proof. destruct a; reflexivity. Qed.

Lemma notifytool_path_truthy (os : host) (h : history) (p : string) :
  List.find (is_executable_file os h) (Package.paths_to_check os) = Some p ->
  PyStr.truthy p = true.
Proof.
  intros Hfind. apply List.find_some in Hfind as [Hin _].
  unfold Package.paths_to_check in Hin.
  destruct Hin as [<- | [<- | [<- | []]]].
  - apply truthy_append_r.
  - reflexivity.
  - unfold PyPath.join.
    change (PyStr.startswith "notifytool" "/") with false. cbv iota.
    destruct (_ || _).
    + apply truthy_append_r.
    + change (script_dir os +:+ "/" +:+ "notifytool")
        with (script_dir os +:+ "/notifytool").
      apply truthy_append_r.
Qed.

Ltac unfold_notification :=
  unfold Package.send_notification, Package.send_notification_notifytool,
    Package.send_notification_osascript, Package.get_notifytool_path,
    try_except;
  unfold_M.

Ltac step_notification :=
  repeat first
    [ rewrite first_executable_eq
    | rewrite say_eq
    | rewrite run_command_eq
    | rewrite app_nil_r
    | progress (cbv beta iota zeta)
    | progress (cbn [PyStr.truthy_opt PyStr.format_opt negb fst snd]) ].

(** X9. In user mode with NotifyTool installed, a notification goes
    through NotifyTool alone when it exits with status 0; when it exits
    with another status, the notification is sent again with osascript,
    and nothing is logged. *)
Theorem notification_prefers_notifytool (os : host) (g : globals)
    (title message : string) (subtitle : option string) (h : history)
    (p : string) :
  List.find (is_executable_file os h) (Package.paths_to_check os) = Some p ->
  (forall h', geteuid os h' <> 0) ->
  let cmd :=
    Argv ([p; "--title"; title; "--body"; message]
          ++ (if PyStr.truthy_opt subtitle
              then ["--subtitle"; PyStr.format_opt subtitle] else [])) in
  let osascript :=
    Argv ["/usr/bin/osascript"; "-e";
          Package.notification_script title message] in
  (forall out,
     run_process os h cmd = Exited 0 out ->
     Package.send_notification os g title message subtitle h
     = (Ret tt, [Exec cmd]))
  /\ (forall rc out rc' out',
        rc <> 0 ->
        run_process os h cmd = Exited rc out ->
        run_process os (h ++ [Exec cmd]) osascript = Exited rc' out' ->
        Package.send_notification os g title message subtitle h
        = (Ret tt, [Exec cmd; Exec osascript])).
Proof.
  intros Hfind Huser cmd osascript.
  pose proof (notifytool_path_truthy os h p Hfind) as Hp.
  assert (Heuid : forall h', (geteuid os h' =? 0) = false)
    by (intros h'; apply Z.eqb_neq, Huser).
  split.
  - intros out Hrun. unfold_notification. step_notification.
    rewrite Hfind. step_notification. rewrite Hp. step_notification.
    rewrite Heuid. unfold run_unchecked. fold cmd. rewrite Hrun.
    reflexivity.
  - intros rc out rc' out' Hrc Hrun Hosa.
    unfold_notification. step_notification.
    rewrite Hfind. step_notification. rewrite Hp. step_notification.
    rewrite !Heuid. unfold run_unchecked. fold cmd. rewrite Hrun.
    apply Z.eqb_neq in Hrc. rewrite Hrc. step_notification.
    cbn [app]. rewrite ?Heuid. step_notification.
    fold osascript. rewrite Hosa. reflexivity.
Qed.

(** X10. In user mode without NotifyTool, a notification is one run of
    osascript, whose exit status is ignored: a failed osascript is
    neither logged nor retried.  Only when osascript cannot be started
    is the failure logged, twice, and [send_notification] still
    returns. *)
Theorem notification_falls_back_to_osascript (os : host) (g : globals)
    (title message : string) (subtitle : option string) (h : history) :
  List.find (is_executable_file os h) (Package.paths_to_check os) = None ->
  (forall h', geteuid os h' <> 0) ->
  let osascript :=
    Argv ["/usr/bin/osascript"; "-e";
          Package.notification_script title message] in
  let m := Package.send_notification os g title message subtitle in
  (forall rc out,
     run_process os h osascript = Exited rc out ->
     m h = (Ret tt, [Exec osascript]))
  /\ (forall detail,
        run_process os h osascript = NotStarted detail ->
        result m h = Ret tt
        /\ switches (effects m h) = []
        /\ logged ("osascript notification failed: "
                   +:+ str_exn os (OSError detail)) (effects m h) = true
        /\ logged ("Could not send notification: " +:+ title
                   +:+ " - " +:+ message) (effects m h) = true).
Proof.
  intros Hfind Huser osascript m.
  assert (Heuid : forall h', (geteuid os h' =? 0) = false)
    by (intros h'; apply Z.eqb_neq, Huser).
  split.
  - intros rc out Hrun. subst m. unfold_notification. step_notification.
    rewrite Hfind. step_notification.
    rewrite !Heuid. unfold run_unchecked. fold osascript. rewrite Hrun.
    reflexivity.
  - intros detail Hrun.
    split; [subst m; unfold result; rewrite send_notification_eq; reflexivity|].
    split; [apply send_notification_no_switches|].
    subst m. unfold effects. unfold_notification. step_notification.
    rewrite Hfind. step_notification.
    rewrite !Heuid. unfold run_unchecked. fold osascript. rewrite Hrun.
    step_notification. unfold is_Exception. step_notification.
    cbn [app].
    assert (Hl : forall msg h',
               existsb (is_log_of msg) (effects (say os g msg) h') = true)
      by (intros; apply say_logged).
    unfold logged. cbn [existsb is_log_of orb].
    rewrite !existsb_app, !Hl, ?orb_true_r. auto.
Qed.

(** Witness of X9: NotifyTool in /usr/local/bin exits with status 0. *)
Lemma notification_prefers_notifytool_witness :
  Package.send_notification
    (notifytool_host 501
       [(Argv ["/usr/local/bin/notifytool"; "--title"; "T"; "--body"; "M"],
         Exited 0 "")])
    sample_globals "T" "M" None []
  = (Ret tt,
     [Exec (Argv ["/usr/local/bin/notifytool"; "--title"; "T"; "--body"; "M"])]).
Proof.
  apply (proj1 (notification_prefers_notifytool
                  (notifytool_host 501
                     [(Argv ["/usr/local/bin/notifytool"; "--title"; "T";
                             "--body"; "M"], Exited 0 "")])
                  sample_globals "T" "M" None []
                  "/usr/local/bin/notifytool" eq_refl
                  (fun h' => ltac:(discriminate)))
           "").
  reflexivity.
Defined.

(** Witness of X10: osascript exits with status 127. *)
Lemma notification_falls_back_to_osascript_witness :
  Package.send_notification bare_host sample_globals "T" "M" None []
  = (Ret tt,
     [Exec (Argv ["/usr/bin/osascript"; "-e";
                  Package.notification_script "T" "M"])]).
Proof.
  apply (proj1 (notification_falls_back_to_osascript
                  bare_host sample_globals "T" "M" None [] eq_refl
                  (fun h' => ltac:(discriminate)))
           127 "").
  reflexivity.
Defined.

(** X11. As the system service (root), a notification is handed to the
    console user with [launchctl asuser]: with NotifyTool installed and
    the user's id known, [send_notification] runs it that way and is
    done whatever [launchctl] answers, with no second try by osascript.
    Without NotifyTool, when the id of the console user cannot be
    determined, nothing at all is sent and nothing is logged. *)
Theorem notification_as_root (os : host) (g : globals)
    (title message : string) (subtitle : option string) (h : history)
    (uout : string) :
  (forall h', geteuid os h' = 0) ->
  run_process os h Package.console_user_command = Exited 0 uout ->
  PyStr.truthy (PyStr.strip uout) = true ->
  let who := Package.console_user_command in
  let id := Package.user_id_command (PyStr.strip (PyStr.strip uout)) in
  (forall p iout rc out,
     List.find (is_executable_file os h) (Package.paths_to_check os) = Some p ->
     run_process os (h ++ [Exec who]) id = Exited 0 iout ->
     PyStr.truthy (PyStr.strip iout) = true ->
     let launch :=
       Argv (["/bin/launchctl"; "asuser"; PyStr.strip (PyStr.strip iout)]
             ++ [p; "--title"; title; "--body"; message]
             ++ (if PyStr.truthy_opt subtitle
                 then ["--subtitle"; PyStr.format_opt subtitle] else [])) in
     run_process os (h ++ [Exec who; Exec id]) launch = Exited rc out ->
     Package.send_notification os g title message subtitle h
     = (Ret tt, [Exec who; Exec id; Exec launch]))
  /\ (List.find (is_executable_file os h) (Package.paths_to_check os) = None ->
      failed_or_empty (run_process os (h ++ [Exec who]) id) ->
      Package.send_notification os g title message subtitle h
      = (Ret tt, [Exec who; Exec id])).
Proof.
  intros Hroot Hwho Huser who id.
  assert (Heuid : forall h', (geteuid os h' =? 0) = true)
    by (intros h'; apply Z.eqb_eq, Hroot).
  split.
  - intros p iout rc out Hfind Hid Hiout launch Hlaunch.
    subst who id launch.
    pose proof (notifytool_path_truthy os h p Hfind) as Hp.
    unfold_notification. step_notification.
    rewrite Hfind. step_notification. rewrite Hp. step_notification.
    rewrite !Heuid. step_notification. rewrite Hwho.
    step_notification. change (0 =? 0) with true. step_notification.
    rewrite Huser. step_notification. cbn [app]. rewrite Hid.
    change (0 =? 0) with true. step_notification. rewrite Hiout.
    unfold run_unchecked. rewrite <- !app_assoc. cbn [app] in *.
    rewrite Hlaunch. reflexivity.
  - intros Hfind Hid. subst who id.
    unfold_notification. step_notification.
    rewrite Hfind. step_notification.
    rewrite !Heuid. step_notification. rewrite Hwho.
    step_notification. change (0 =? 0) with true. step_notification.
    rewrite Huser. step_notification. cbn [app].
    destruct (run_process os (h ++ [Exec Package.console_user_command])
                (Package.user_id_command (PyStr.strip (PyStr.strip uout))))
      as [rc out|detail]; [|contradiction].
    assert (Hempty : (if rc =? 0 then PyStr.strip out else "") = "").
    { destruct Hid as [Hrc | Hout].
      - apply Z.eqb_neq in Hrc. rewrite Hrc. reflexivity.
      - rewrite Hout. destruct (rc =? 0); reflexivity. }
    rewrite Hempty. reflexivity.
Qed.

(** Witness of X11: root, no NotifyTool, the console user is "user" and
    [id] fails. *)
Lemma notification_as_root_witness :
  Package.send_notification
    (root_host [(Package.console_user_command, Exited 0 "user")])
    sample_globals "T" "M" None []
  = (Ret tt,
     [Exec Package.console_user_command;
      Exec (Package.user_id_command "user")]).
Proof.
  apply (proj2 (notification_as_root
                  (root_host [(Package.console_user_command, Exited 0 "user")])
                  sample_globals "T" "M" None [] "user"
                  (fun h' => eq_refl) eq_refl eq_refl)
           eq_refl).
  left. discriminate.
Defined.

(** ** [validate_config] as the module load runs it *)

(** The closed form of [validate_config] on a configuration that has
    its four keys, while [LOG_FILE] is not bound yet. *)
Lemma validate_config_loading_eq (os : host)
    (default_log fallback_name : string) (config : gmap string pyval)
    (h : history) (v l : pyval) :
  (forall key, In key config_keys -> is_Some (config !! key)) ->
  config !! "ssid_location_map" = Some v ->
  config !! "log_file" = Some l ->
  validate_config_with os None default_log fallback_name config h
  = if is_dict v then
      match l with
      | PStr s =>
          if PyStr.truthy (PyPath.dirname s)
             && negb (path_exists os h (PyPath.dirname s))
          then (Raise (NameError "LOG_FILE"), [MakeDirs (PyPath.dirname s)])
          else (Ret config, [])
      | _ => (Raise (TypeError "expected str, bytes or os.PathLike object"), [])
      end
    else (Raise (NameError "LOG_FILE"), []).
Proof.
  intros Hall Hv Hl. unfold validate_config_with. unfold_M.
  rewrite (fill_defaults_nothing_missing os None (defaults default_log))
    by exact Hall.
  unfold fix_ssid_map, fix_log_dir. rewrite Hv.
  destruct (is_dict v); [|reflexivity].
  unfold_M. cbn [fst snd app]. rewrite Hl, !app_nil_r.
  destruct l; try reflexivity.
  destruct (PyStr.truthy (PyPath.dirname s)
            && negb (path_exists os h (PyPath.dirname s))); [|reflexivity].
  unfold try_except, log. unfold_M. cbn [fst snd app].
  destruct (makedirs os _ _); reflexivity.
Qed.

(** X12. While the module loads, [validate_config] returns only when
    there is nothing to fix: the four keys are present, the SSID map is
    a dictionary, and the log file is a string whose directory is empty
    or exists.  It then returns the configuration unchanged and does
    nothing. *)
Theorem validate_config_at_load (os : host) (config c : gmap string pyval)
    (h : history) :
  result (Package.validate_config os None config) h = Ret c
  <-> c = config
      /\ (exists d, config !! "ssid_location_map" = Some (PDict d))
      /\ is_Some (config !! "default_wifi_location")
      /\ is_Some (config !! "ethernet_location")
      /\ (exists s,
            config !! "log_file" = Some (PStr s)
            /\ (PyPath.dirname s = ""
                \/ path_exists os h (PyPath.dirname s) = true)).
Proof.
  unfold Package.validate_config. split.
  - intros Hr.
    assert (Hall : forall key, In key config_keys -> is_Some (config !! key)).
    { intros key Hkey. destruct (config !! key) as [x|] eqn:Hx; [eauto|].
      unfold result in Hr. rewrite validate_config_unbound in Hr by eauto.
      discriminate. }
    destruct (Hall "ssid_location_map") as [v Hv]; [cbn; auto|].
    destruct (Hall "log_file") as [l Hl]; [cbn; auto|].
    unfold result in Hr.
    rewrite (validate_config_loading_eq os _ _ config h v l Hall Hv Hl) in Hr.
    destruct v; try discriminate. cbn [is_dict] in Hr.
    destruct l; try discriminate.
    destruct (PyStr.truthy (PyPath.dirname s)) eqn:Hdir;
      destruct (path_exists os h (PyPath.dirname s)) eqn:Hex;
      cbn in Hr; try discriminate; injection Hr as <-.
    all: split; [reflexivity|]; split; [eauto|];
      split; [apply Hall; cbn; auto|]; split; [apply Hall; cbn; auto|];
      exists s; split; [exact Hl|]; auto.
    all: left; destruct (PyPath.dirname s); [reflexivity|discriminate].
  - intros (-> & [d Hd] & Hw & He & (s & Hs & Hdir)).
    assert (Hall : forall key, In key config_keys -> is_Some (config !! key)).
    { intros key [<- | [<- | [<- | [<- | []]]]]; eauto. }
    unfold result.
    rewrite (validate_config_loading_eq os _ _ config h _ _ Hall Hd Hs).
    cbn [is_dict]. destruct Hdir as [-> | ->]; [reflexivity|].
    rewrite andb_false_r. reflexivity.
Qed.

(** X13. While the module loads, a configuration that is complete but
    whose log directory does not exist makes [validate_config] call
    [os.makedirs] and then raise [NameError], whether or not the
    directory could be created: the load fails after its side effect,
    and a log file that is not a string raises [TypeError]. *)
Theorem validate_config_missing_log_directory (os : host)
    (config : gmap string pyval) (h : history) (d : gmap string pyval)
    (l : pyval) :
  config !! "ssid_location_map" = Some (PDict d) ->
  is_Some (config !! "default_wifi_location") ->
  is_Some (config !! "ethernet_location") ->
  config !! "log_file" = Some l ->
  match l with
  | PStr s =>
      PyPath.dirname s <> "" ->
      path_exists os h (PyPath.dirname s) = false ->
      Package.validate_config os None config h
      = (Raise (NameError "LOG_FILE"), [MakeDirs (PyPath.dirname s)])
      /\ Script.validate_config os None config h
         = (Raise (NameError "LOG_FILE"), [MakeDirs (PyPath.dirname s)])
  | _ =>
      Package.validate_config os None config h
      = (Raise (TypeError "expected str, bytes or os.PathLike object"), [])
      /\ Script.validate_config os None config h
         = (Raise (TypeError "expected str, bytes or os.PathLike object"), [])
  end.
Proof.
  intros Hd Hw He Hl.
  assert (Hall : forall key, In key config_keys -> is_Some (config !! key)).
  { intros key [<- | [<- | [<- | [<- | []]]]]; eauto. }
  unfold Package.validate_config, Script.validate_config.
  rewrite !(validate_config_loading_eq os _ _ config h _ _ Hall Hd Hl).
  cbn [is_dict]. destruct l; try (split; reflexivity).
  intros Hdir Hex. rewrite Hex.
  destruct (PyPath.dirname s); [congruence|]. split; reflexivity.
Qed.

(** Witness of X12: the log directory exists. *)
Lemma validate_config_at_load_witness :
  result (Package.validate_config bare_host None sample_config) []
  = Ret sample_config.
Proof.
  apply (proj2 (validate_config_at_load bare_host sample_config
                  sample_config [])).
  split; [reflexivity|].
  split; [eexists; vm_compute; reflexivity|].
  split; [eexists; vm_compute; reflexivity|].
  split; [eexists; vm_compute; reflexivity|].
  exists "/usr/local/log/network_loc_switcher.log".
  split; [vm_compute; reflexivity|]. right. reflexivity.
Defined.

(** Witness of X13: the log directory does not exist. *)
Lemma validate_config_missing_log_directory_witness :
  Package.validate_config fresh_host None sample_config []
  = (Raise (NameError "LOG_FILE"), [MakeDirs "/usr/local/log"])
  /\ Script.validate_config fresh_host None sample_config []
     = (Raise (NameError "LOG_FILE"), [MakeDirs "/usr/local/log"]).
Proof.
  apply (validate_config_missing_log_directory fresh_host sample_config []
           {[ "HomeNet" := PStr "Home" ]}
           (PStr "/usr/local/log/network_loc_switcher.log")).
  - vm_compute. reflexivity.
  - eexists. vm_compute. reflexivity.
  - eexists. vm_compute. reflexivity.
  - vm_compute. reflexivity.
  - vm_compute. discriminate.
  - reflexivity.
Defined.

(** ** [validate_config] once [LOG_FILE] is bound *)





(** ** Escaping for AppleScript *)

Lemma append_assoc3 (a b c : string) : (a +:+ b) +:+ c = a +:+ (b +:+ c).
Proof.
  induction a as [|x a IH]; [reflexivity|].
  rewrite !append_cons, IH. reflexivity.
Qed.

Lemma prefix_empty (s : string) : String.prefix "" s = true.
Proof. destruct s; reflexivity. Qed.

Lemma replace_char_app (o : ascii) (new a b : string) :
  PyStr.replace (a +:+ b) (String o "") new
  = PyStr.replace a (String o "") new +:+ PyStr.replace b (String o "") new.
Proof.
  unfold PyStr.replace.
  induction a as [|c a IH].
  - rewrite !append_nil_l. reflexivity.
  - rewrite append_cons. cbn [PyStr.replace_go String.prefix String.length Nat.pred].
    destruct (ascii_dec o c).
    + rewrite !prefix_empty, IH, append_assoc3. reflexivity.
    + rewrite IH, append_cons. reflexivity.
Qed.

(** X15. [send_notification_osascript] escapes its texts character by
    character: a backslash is doubled and every other character but the
    double quote is kept.  A double quote becomes backslash, backslash,
    quote: the backslash that was to escape it is doubled by the second
    replacement, so the quote itself is left unescaped in the script. *)
Theorem applescript_escape_by_character :
  (forall a b,
     Package.applescript_escape (a +:+ b)
     = Package.applescript_escape a +:+ Package.applescript_escape b)
  /\ Package.applescript_escape ""%string = ""%string
  /\ Package.applescript_escape Package.DQUOTE
     = Package.BACKSLASH +:+ Package.BACKSLASH +:+ Package.DQUOTE
  /\ Package.applescript_escape Package.BACKSLASH
     = Package.BACKSLASH +:+ Package.BACKSLASH
  /\ (forall c : ascii,
        String c "" <> Package.DQUOTE -> String c "" <> Package.BACKSLASH ->
        Package.applescript_escape (String c "") = String c "").
Proof.
  split; [|split; [reflexivity|split; [reflexivity|split; [reflexivity|]]]].
  - intros a b. unfold Package.applescript_escape, Package.DQUOTE,
      Package.BACKSLASH.
    rewrite !replace_char_app. reflexivity.
  - intros c Hq Hb. unfold Package.applescript_escape, Package.DQUOTE,
      Package.BACKSLASH, PyStr.replace in *.
    cbn [PyStr.replace_go String.prefix].
    destruct (ascii_dec (ascii_of_nat 34) c) as [<- | _]; [congruence|].
    cbn [PyStr.replace_go String.prefix].
    destruct (ascii_dec (ascii_of_nat 92) c) as [<- | _]; [congruence|].
    reflexivity.
Qed.

(** Witness of X15: the letter a. *)
Lemma applescript_escape_by_character_witness :
  Package.applescript_escape "a" = "a"%string.
Proof.
  apply (proj2 (proj2 (proj2 (proj2 applescript_escape_by_character)))
           "a"%char); discriminate.
Defined.

(** ** The command line *)

Lemma member_In (s : string) (options : list string) :
  member s options = true -> In s options.
Proof.
  unfold member. intros H. apply existsb_exists in H as (x & Hin & Heq).
  apply String.eqb_eq in Heq. subst x. exact Hin.
Qed.

Lemma no_free_argument_nil : no_free_argument [].
Proof. intros [|b before] x after H; discriminate. Qed.

Lemma no_free_argument_skip (arg : string) (rest : list string) :
  PyStr.startswith arg "-" = true ->
  no_free_argument rest -> no_free_argument (arg :: rest).
Proof.
  intros Harg Hrest [|b before] x after Heq Hx; injection Heq as -> ->.
  - congruence.
  - destruct (Hrest before x after eq_refl Hx) as (before' & flag & -> & Hflag).
    exists (b :: before'), flag. split; [reflexivity|exact Hflag].
Qed.

Lemma no_free_argument_value (flag v : string) (rest : list string) :
  PyStr.startswith flag "-" = true ->
  (PyStr.startswith v "-" = false -> accepted_after flag v = true) ->
  no_free_argument rest -> no_free_argument (flag :: v :: rest).
Proof.
  intros Hflag Hv Hrest [|b [|b' before]] x after Heq Hx.
  - injection Heq as -> <-. congruence.
  - injection Heq as -> -> ->. exists [], b. split; [reflexivity|auto].
  - injection Heq as -> -> ->.
    destruct (Hrest before x after eq_refl Hx) as (before' & f & -> & Hf).
    exists (b :: b' :: before'), f. split; [reflexivity|exact Hf].
Qed.

Lemma parse_loop_no_free_argument (n : nat) :
  forall (args : list string) (cf : option string)
         (tm : PackageLoader.TestMode) (cm : PackageLoader.ConfigMode)
         (cf' : option string) (tm' : PackageLoader.TestMode)
         (cm' : PackageLoader.ConfigMode) (o : list output),
    (length args <= n)%nat ->
    PackageLoader.parse_loop args cf tm cm
    = (PackageLoader.Parsed cf' tm' cm', o) ->
    o = [] /\ no_free_argument args.
Proof.
  induction n as [|n IH]; intros args cf tm cm cf' tm' cm' o Hlen Hparse.
  - destruct args; [|cbn in Hlen; lia].
    cbn in Hparse. injection Hparse as <- <- <- <-.
    split; [reflexivity|apply no_free_argument_nil].
  - destruct args as [|arg rest].
    { cbn in Hparse. injection Hparse as <- <- <- <-.
      split; [reflexivity|apply no_free_argument_nil]. }
    cbn [length] in Hlen.
    assert (Hrest : forall cf tm cm,
               PackageLoader.parse_loop rest cf tm cm
               = (PackageLoader.Parsed cf' tm' cm', o) ->
               PyStr.startswith arg "-" = true ->
               o = [] /\ no_free_argument (arg :: rest)).
    { intros cf0 tm0 cm0 H Harg.
      destruct (IH rest cf0 tm0 cm0 cf' tm' cm' o ltac:(lia) H) as [-> Hfree].
      split; [reflexivity|]. apply no_free_argument_skip; assumption. }
    assert (Hvalue : forall v rest' cf tm cm,
               rest = v :: rest' ->
               PackageLoader.parse_loop rest' cf tm cm
               = (PackageLoader.Parsed cf' tm' cm', o) ->
               PyStr.startswith arg "-" = true ->
               (PyStr.startswith v "-" = false ->
                accepted_after arg v = true) ->
               o = [] /\ no_free_argument (arg :: rest)).
    { intros v rest' cf0 tm0 cm0 -> H Harg Hv. cbn [length] in Hlen.
      destruct (IH rest' cf0 tm0 cm0 cf' tm' cm' o ltac:(lia) H) as [-> Hfree].
      split; [reflexivity|]. apply no_free_argument_value; assumption. }
    cbn [PackageLoader.parse_loop] in Hparse.
    destruct (member arg ["--help"; "-h"; "help"]); [discriminate|].
    destruct (member arg ["--version"; "-v"; "version"]); [discriminate|].
    destruct (member arg ["--configuration_file"; "--config"; "-c"]) eqn:Hc.
    { destruct rest as [|file rest']; [discriminate|].
      apply (Hvalue file rest' _ _ _ eq_refl Hparse).
      - apply member_In in Hc. cbn in Hc.
        destruct Hc as [<- | [<- | [<- | []]]]; reflexivity.
      - intros _. unfold accepted_after. rewrite Hc. reflexivity. }
    destruct (member arg ["--mode"; "-m"]) eqn:Hm.
    { assert (Harg : PyStr.startswith arg "-" = true).
      { apply member_In in Hm. cbn in Hm.
        destruct Hm as [<- | [<- | []]]; reflexivity. }
      destruct rest as [|next rest']; [discriminate|].
      cbv zeta in Hparse.
      assert (Hknown : member (lower next)
                         ["system"; "sys"; "s"; "user"; "usr"; "u";
                          "dev"; "development"; "d"; "auto"; "a"] = true ->
                       accepted_after arg next = true).
      { intros H. unfold accepted_after. rewrite Hm, H.
        rewrite orb_true_r. reflexivity. }
      unfold member in Hparse, Hknown. cbn [existsb] in Hparse, Hknown.
      repeat match type of Hparse with
      | context [String.eqb (lower next) ?s] =>
          destruct (String.eqb (lower next) s);
          cbn [orb] in Hparse, Hknown; cbv iota in Hparse
      end;
      try (apply (Hvalue next rest' _ _ _ eq_refl Hparse Harg);
           intros _; apply Hknown; reflexivity).
      discriminate. }
    destruct (member arg ["--test"; "-t"]) eqn:Ht.
    { assert (Harg : PyStr.startswith arg "-" = true).
      { apply member_In in Ht. cbn in Ht.
        destruct Ht as [<- | [<- | []]]; reflexivity. }
      destruct rest as [|next rest']; [apply (Hrest _ _ _ Hparse Harg)|].
      destruct (negb (PyStr.startswith next "-"));
        [|apply (Hrest _ _ _ Hparse Harg)].
      cbv zeta in Hparse.
      assert (Hknown : member (lower next)
                         ["notification"; "notify"; "n"; "network"; "net";
                          "location"; "loc"; "all"; "a"] = true ->
                       accepted_after arg next = true).
      { intros H. unfold accepted_after. rewrite Ht, H.
        rewrite !orb_true_r. reflexivity. }
      unfold member in Hparse, Hknown. cbn [existsb] in Hparse, Hknown.
      repeat match type of Hparse with
      | context [String.eqb (lower next) ?s] =>
          destruct (String.eqb (lower next) s);
          cbn [orb] in Hparse, Hknown; cbv iota in Hparse
      end;
      try (apply (Hvalue next rest' _ _ _ eq_refl Hparse Harg);
           intros _; apply Hknown; reflexivity).
      apply (Hrest _ _ _ Hparse Harg). }
    destruct (String.eqb arg "--test-notification") eqn:H1.
    { apply String.eqb_eq in H1. subst arg. apply (Hrest _ _ _ Hparse eq_refl). }
    destruct (String.eqb arg "--test-network") eqn:H2.
    { apply String.eqb_eq in H2. subst arg. apply (Hrest _ _ _ Hparse eq_refl). }
    destruct (String.eqb arg "--test-location") eqn:H3.
    { apply String.eqb_eq in H3. subst arg. apply (Hrest _ _ _ Hparse eq_refl). }
    destruct (PyStr.startswith arg "-"); discriminate.
Qed.

(** X16. When [parse_args] of the package script returns, it has
    printed nothing, and every argument that is not an option stands
    right after a flag that takes it: any word after [-c], a known mode
    after [--mode], a known test type after [--test].  A free
    argument, such as a configuration file given without [-c], is never
    accepted. *)
Theorem parse_args_takes_no_free_argument (argv : list string)
    (config_file : option string) (test_mode : PackageLoader.TestMode)
    (config_mode : PackageLoader.ConfigMode) (o : list output) :
  PackageLoader.parse_args argv
  = (PackageLoader.Parsed config_file test_mode config_mode, o) ->
  o = [] /\ no_free_argument (List.tl argv).
Proof.
  unfold PackageLoader.parse_args. intros Hparse.
  apply (parse_loop_no_free_argument (length (List.tl argv)) _ _ _ _ _ _ _ _
           (Nat.le_refl _) Hparse).
Qed.

(** Witness of X16: a configuration file and a test type. *)
Lemma parse_args_takes_no_free_argument_witness :
  @nil output = []
  /\ no_free_argument ["-c"; "my.json"; "--test"; "net"].
Proof.
  apply (parse_args_takes_no_free_argument
           ["network_loc_switcher"; "-c"; "my.json"; "--test"; "net"]
           (Some "my.json") PackageLoader.NETWORK PackageLoader.AUTO []).
  reflexivity.
Defined.

(** The third example of the help text, [--test --mode system
    notification], is rejected: [--test] does not take [--mode], and
    [notification] is then a free argument. *)
Example help_example_is_rejected :
  PackageLoader.parse_args
    ["network_loc_switcher"; "--test"; "--mode"; "system"; "notification"]
  = (PackageLoader.Exits 1,
     [Line "Unexpected argument: notification";
      Line "Use -c or --configuration_file to specify a config file.";
      Line "Use --help for usage information."]).
Proof. reflexivity. Qed.

Lemma not_option_neq (f rest : string) :
  PyStr.startswith f "-" = false -> String.eqb f (String "-" rest) = false.
Proof.
  intros Hf. apply String.eqb_neq. intros ->.
  unfold PyStr.startswith in Hf. cbn in Hf.
  destruct (ascii_dec "-" "-"); [|congruence].
  rewrite prefix_empty in Hf. discriminate.
Qed.

(** X17. The two scripts disagree on a configuration file given as a
    plain argument, the usage both docstrings show: the standalone
    script takes it as the configuration file, the package script
    rejects it with exit status 1. *)
Theorem scripts_disagree_on_plain_argument (prog f : string)
    (rest : list string) :
  PyStr.startswith f "-" = false ->
  member f ["help"; "version"] = false ->
  ScriptLoader.parse_args (prog :: f :: rest)
  = (ScriptLoader.Parsed (Some f), [])
  /\ PackageLoader.parse_args (prog :: f :: rest)
     = (PackageLoader.Exits 1,
        [Line ("Unexpected argument: " +:+ f);
         Line "Use -c or --configuration_file to specify a config file.";
         Line "Use --help for usage information."]).
Proof.
  intros Hf Hword. unfold member in Hword. cbn [existsb] in Hword.
  apply orb_false_elim in Hword as [Hhelp Hword].
  apply orb_false_elim in Hword as [Hversion _].
  unfold ScriptLoader.parse_args, PackageLoader.parse_args.
  cbn [List.tl PackageLoader.parse_loop]. unfold member. cbn [existsb].
  rewrite !(not_option_neq f _ Hf), Hhelp, Hversion, Hf. cbn [orb].
  split; reflexivity.
Qed.

(** Witness of X17. *)
Lemma scripts_disagree_on_plain_argument_witness :
  ScriptLoader.parse_args ["nls"; "my.json"]
  = (ScriptLoader.Parsed (Some "my.json"), [])
  /\ PackageLoader.parse_args ["nls"; "my.json"]
     = (PackageLoader.Exits 1,
        [Line ("Unexpected argument: " +:+ "my.json");
         Line "Use -c or --configuration_file to specify a config file.";
         Line "Use --help for usage information."]).
Proof.
  apply (scripts_disagree_on_plain_argument "nls" "my.json" []);
    reflexivity.
Defined.

(** ** The search for the configuration file *)

Lemma search_app_none (d : disk) (before rest : list string) :
  fst (search d before) = None ->
  search d (before ++ rest)
  = (fst (search d rest), snd (search d before) ++ snd (search d rest)).
Proof.
  induction before as [|q before IH]; cbn [app search]; intros Hnone.
  - destruct (search d rest); reflexivity.
  - destruct (isfile d q); [|apply IH, Hnone].
    destruct (json_load d q) as [v|e]; [discriminate|].
    destruct (search d before) as [r o] eqn:Hs. cbn [fst] in Hnone.
    cbn [fst snd] in *. rewrite (IH Hnone). reflexivity.
Qed.

Lemma search_skips (d : disk) (before : list string) :
  (forall q v, In q before -> d !! q <> Some (JsonFile v)) ->
  fst (search d before) = None.
Proof.
  induction before as [|q before IH]; intros Hbad; [reflexivity|].
  cbn [search]. unfold isfile, json_load.
  assert (Hrest : fst (search d before) = None)
    by (apply IH; intros q' v Hq'; apply Hbad; right; exact Hq').
  destruct (d !! q) as [[v|e|e]|] eqn:Hq; try exact Hrest.
  - exfalso. apply (Hbad q v); [left; reflexivity|exact Hq].
  - destruct (search d before); exact Hrest.
  - destruct (search d before); exact Hrest.
Qed.

Lemma search_first (d : disk) (before : list string) (p : string)
    (after : list string) (v : pyval) :
  (forall q v', In q before -> d !! q <> Some (JsonFile v')) ->
  d !! p = Some (JsonFile v) ->
  search d (before ++ p :: after)
  = (Some v,
     snd (search d before)
     ++ [Stamped ("Loaded configuration from: " +:+ p)]).
Proof.
  intros Hbad Hp. rewrite search_app_none by (apply search_skips, Hbad).
  cbn [search]. unfold isfile, json_load. rewrite Hp. reflexivity.
Qed.

Lemma standard_search_missing_file (os : host) (username : string)
    (write_error : string -> option string) (log_file : option string)
    (default_log f : string) (d : disk) :
  d !! f = None ->
  standard_search os username write_error log_file default_log (Some f) d
  = standard_search os username write_error log_file default_log None d.
Proof.
  intros Hf. unfold standard_search.
  cbn [config_paths config_paths_filtered search].
  unfold isfile at 1. rewrite Hf. reflexivity.
Qed.

(** X18. In both scripts the configuration is that of the first file of
    the search order that can be read as JSON: the file given on the
    command line, then the script directory, the home directory, the
    user's directory under /usr/local/etc, /usr/local/etc and /etc.
    Files before it that cannot be read only print an error, and
    nothing is written.  A file given on the command line that does not
    exist is passed over without a word. *)
Theorem load_config_first_readable (os : host) (username : string)
    (write_error : string -> option string) (log_file : option string)
    (d : disk) (config_file : option string)
    (before : list string) (p : string) (after : list string) (v : pyval) :
  config_paths_filtered (config_paths os username config_file)
  = before ++ p :: after ->
  (forall q v', In q before -> d !! q <> Some (JsonFile v')) ->
  d !! p = Some (JsonFile v) ->
  let loaded :=
    (Returns v, d,
     snd (search d before)
     ++ [Stamped ("Loaded configuration from: " +:+ p)]) in
  (forall argv test_mode,
     PackageLoader.parse_args argv
     = (PackageLoader.Parsed config_file test_mode PackageLoader.AUTO, []) ->
     PackageLoader.load_config os username write_error log_file argv d
     = loaded)
  /\ (forall argv,
        ScriptLoader.parse_args argv
        = (ScriptLoader.Parsed config_file, []) ->
        ScriptLoader.load_config os username write_error log_file argv d
        = loaded)
  /\ (forall f default_log,
        d !! f = None ->
        standard_search os username write_error log_file default_log
          (Some f) d
        = standard_search os username write_error log_file default_log
            None d).
Proof.
  intros Hpaths Hbad Hp loaded. split; [|split].
  - intros argv test_mode Hparse.
    unfold PackageLoader.load_config. rewrite Hparse.
    unfold standard_search. rewrite Hpaths.
    rewrite (search_first d before p after v Hbad Hp). reflexivity.
  - intros argv Hparse.
    unfold ScriptLoader.load_config. rewrite Hparse.
    unfold standard_search. rewrite Hpaths.
    rewrite (search_first d before p after v Hbad Hp). reflexivity.
  - intros f default_log Hf. apply standard_search_missing_file, Hf.
Qed.

(** Witness of X18: the file given with [-c] does not exist, and the
    configuration is in the home directory. *)
Lemma load_config_first_readable_witness :
  PackageLoader.load_config bare_host "user" (fun _ => None) None
    ["nls"; "-c"; "/tmp/missing.json"]
    {[ "/Users/user/.network-location-config.json"
       := JsonFile (PDict sample_config) ]}
  = (Returns (PDict sample_config),
     {[ "/Users/user/.network-location-config.json"
        := JsonFile (PDict sample_config) ]},
     [Stamped ("Loaded configuration from: "
               +:+ "/Users/user/.network-location-config.json")]).
Proof.
  refine (proj1 (load_config_first_readable bare_host "user" (fun _ => None)
                   None
                   {[ "/Users/user/.network-location-config.json"
                      := JsonFile (PDict sample_config) ]}
                   (Some "/tmp/missing.json")
                   ["/tmp/missing.json";
                    "/opt/network-location-switcher/network-location-config.json"]
                   "/Users/user/.network-location-config.json"
                   _ (PDict sample_config) eq_refl _ _)
            ["nls"; "-c"; "/tmp/missing.json"] PackageLoader.NONE eq_refl).
  - intros q v' [<- | [<- | []]]; vm_compute; discriminate.
  - vm_compute. reflexivity.
Defined.
